(** * search_and_download_quickstart: a model of the notebook's code cells

    The repository is one Jupyter notebook,
    [notebooks/search_and_download_quickstart.ipynb].  Its ten code cells are
    embedded below as programs of a small state-and-exception monad over the
    kernel's state: the global name space, the objects built by the dict and
    list displays, the environment, the requests handed to [requests] and
    what was printed.  The Data API itself is not part of the repository: it
    is a parameter of the development. *)

From Stdlib Require Import ZArith QArith String List.
From stdpp Require Import base option list gmap strings.

Set Warnings "-register-all".
Local Open Scope string_scope.
Local Open Scope list_scope.

(** ** Values *)

(** What [Response.json()] decodes, and what the literals of the notebook
    denote.  A [JObj] stands for a Python [dict]: its bindings in insertion
    order, with pairwise distinct keys.  A float is held as the decimal it
    is written with. *)
Inductive json : Type :=
| JNull
| JBool (b : bool)
| JInt (z : Z)
| JFloat (q : Q)
| JStr (s : string)
| JArr (xs : list json)
| JObj (kvs : list (string * json)).

(** The subscripts written in the notebook are string and integer literals. *)
Inductive key : Type :=
| KStr (s : string)
| KInt (i : Z).

(** The exceptions the modelled statements can raise.  [RequestException]
    stands for every exception of [requests] (no connection, invalid URL);
    [EncodeError] for what [json.dumps] raises on a value it cannot encode. *)
Inductive exn : Type :=
| NameError (name : string)
| KeyError (k : key)
| IndexError
| TypeError
| AttributeError (attr : string)
| JSONDecodeError
| RequestException
| EncodeError.

Inductive result (A : Type) : Type :=
| Ok (a : A)
| Raise (e : exn).
Arguments Ok {A} a.
Arguments Raise {A} e.

(** A [requests.Response], as far as the notebook looks at it: the value its
    [json()] method decodes, [None] when the body is not JSON. *)
Record Response : Type := mkResponse { resp_json : option json }.

(** The address of an object: its index in the heap. *)
Abbreviation loc := nat.

(** A Python value held by a name: a decoded value or a string or number
    (immutable, or never aliased), a reference to a dict or list built by a
    display of the notebook, or a response object. *)
Inductive val : Type :=
| VJson (j : json)
| VRef (l : loc)
| VResp (r : Response).

Inductive obj : Type :=
| ODict (kvs : list (string * val))
| OList (xs : list val).

Inductive method : Type := GET | POST.

Record Request : Type := mkRequest {
  req_method : method;
  req_url : string;
  req_auth : val * val;          (* HTTPBasicAuth(username, password) *)
  req_json : option json         (* the [json=] argument, encoded *)
}.

Record kernel : Type := mkKernel {
  environ : gmap string string;  (* os.environ *)
  globals : list (string * val); (* the global names, latest binding first *)
  heap : list obj;               (* objects built by displays, by address *)
  sent : list Request;           (* requests handed to the service, oldest first *)
  stdout : list val              (* arguments of print, oldest first *)
}.

Definition str (s : string) : val := VJson (JStr s).

(** ** Subscription, iteration and truth of decoded values *)

Fixpoint dict_get {A : Type} (kvs : list (string * A)) (s : string) : option A :=
  match kvs with
  | [] => None
  | (k, v) :: kvs' => if String.eqb k s then Some v else dict_get kvs' s
  end.

(** [l[i]] for a Python sequence: negative indices count from the end. *)
Definition py_index {A : Type} (l : list A) (i : Z) : option A :=
  let n := Z.of_nat (length l) in
  if (0 <=? i)%Z then l !! Z.to_nat i
  else if (- n <=? i)%Z then l !! Z.to_nat (n + i)
  else None.

Definition chars (s : string) : list json :=
  (fun c => JStr (String c EmptyString)) <$> list_ascii_of_string s.

Definition json_getitem (j : json) (k : key) : result json :=
  match j, k with
  | JObj kvs, KStr s =>
      match dict_get kvs s with Some v => Ok v | None => Raise (KeyError k) end
  | JObj _, KInt _ => Raise (KeyError k)
  | JArr xs, KInt i =>
      match py_index xs i with Some v => Ok v | None => Raise IndexError end
  | JStr s, KInt i =>
      match py_index (chars s) i with Some v => Ok v | None => Raise IndexError end
  | _, _ => Raise TypeError
  end.

Definition json_iter (j : json) : result (list json) :=
  match j with
  | JArr xs => Ok xs
  | JObj kvs => Ok ((fun kv => JStr (fst kv)) <$> kvs)
  | JStr s => Ok (chars s)
  | _ => Raise TypeError
  end.

Definition truthy (s : string) : bool :=
  match s with EmptyString => false | _ => true end.

(** ** The monad of cell programs *)

Definition M (A : Type) : Type := kernel -> result A * kernel.

Definition ret {A : Type} (a : A) : M A := fun k => (Ok a, k).

Definition raise {A : Type} (e : exn) : M A := fun k => (Raise e, k).

Definition bind {A B : Type} (m : M A) (f : A -> M B) : M B :=
  fun k =>
    match m k with
    | (Ok a, k') => f a k'
    | (Raise e, k') => (Raise e, k')
    end.

Declare Scope cell_scope.
Delimit Scope cell_scope with cell.
Notation "x <- m ;; f" := (bind m (fun x => f))
  (at level 100, m at next level, right associativity) : cell_scope.
Notation "m ;; f" := (bind m (fun _ => f))
  (at level 100, right associativity) : cell_scope.
Local Open Scope cell_scope.

Definition lift {A : Type} (r : result A) : M A := fun k => (r, k).

Fixpoint traverse {A B : Type} (f : A -> M B) (l : list A) : M (list B) :=
  match l with
  | [] => ret []
  | a :: l' => b <- f a ;; bs <- traverse f l' ;; ret (b :: bs)
  end.

(** The four ways a statement changes the kernel's state. *)
Definition set_global (x : string) (v : val) (k : kernel) : kernel :=
  mkKernel (environ k) ((x, v) :: globals k) (heap k) (sent k) (stdout k).

Definition push_obj (o : obj) (k : kernel) : kernel :=
  mkKernel (environ k) (globals k) (heap k ++ [o]) (sent k) (stdout k).

Definition log_request (r : Request) (k : kernel) : kernel :=
  mkKernel (environ k) (globals k) (heap k) (sent k ++ [r]) (stdout k).

Definition emit (v : val) (k : kernel) : kernel :=
  mkKernel (environ k) (globals k) (heap k) (sent k) (stdout k ++ [v]).

(** Reading and binding a global name. *)
Definition name (x : string) : M val :=
  fun k =>
    match dict_get (globals k) x with
    | Some v => (Ok v, k)
    | None => (Raise (NameError x), k)
    end.

Definition assign (x : string) (v : val) : M unit :=
  fun k => (Ok tt, set_global x v k).

(** A dict or list display builds a new object; nothing else touches the
    heap. *)
Definition alloc (o : obj) : M val :=
  fun k => (Ok (VRef (length (heap k))), push_obj o k).

Definition new_dict (kvs : list (string * val)) : M val := alloc (ODict kvs).
Definition new_list (xs : list val) : M val := alloc (OList xs).

Definition print (v : val) : M unit :=
  fun k => (Ok tt, emit v k).

(** [os.environ.get(x, dflt)] *)
Definition environ_get (x dflt : string) : M string :=
  fun k => (Ok (default dflt (environ k !! x)), k).

(** [v[k]] on any value: a decoded value is read as it is, a reference
    through the heap; a response object is not subscriptable. *)
Definition getitem (h : list obj) (v : val) (k : key) : result val :=
  match v with
  | VJson j =>
      match json_getitem j k with Ok x => Ok (VJson x) | Raise e => Raise e end
  | VRef l =>
      match h !! l, k with
      | Some (ODict kvs), KStr s =>
          match dict_get kvs s with Some x => Ok x | None => Raise (KeyError k) end
      | Some (ODict _), KInt _ => Raise (KeyError k)
      | Some (OList xs), KInt i =>
          match py_index xs i with Some x => Ok x | None => Raise IndexError end
      | _, _ => Raise TypeError
      end
  | VResp _ => Raise TypeError
  end.

Definition subscript (v : val) (k : key) : M val :=
  fun st => (getitem (heap st) v k, st).

(** The elements a [for] clause draws from a value. *)
Definition elements (h : list obj) (v : val) : result (list val) :=
  match v with
  | VJson j =>
      match json_iter j with Ok xs => Ok (VJson <$> xs) | Raise e => Raise e end
  | VRef l =>
      match h !! l with
      | Some (OList xs) => Ok xs
      | Some (ODict kvs) => Ok ((fun kv => str (fst kv)) <$> kvs)
      | None => Raise TypeError
      end
  | VResp _ => Raise TypeError
  end.

Definition iterate (v : val) : M (list val) :=
  fun st => (elements (heap st) v, st).

(** [list(d.items())]: the (key, value) pairs of a dict, in order. *)
Definition dict_items (h : list obj) (v : val) : result (list (string * val)) :=
  match v with
  | VJson (JObj kvs) => Ok ((fun kv => (fst kv, VJson (snd kv))) <$> kvs)
  | VRef l =>
      match h !! l with
      | Some (ODict kvs) => Ok kvs
      | _ => Raise (AttributeError "items")
      end
  | _ => Raise (AttributeError "items")
  end.

Definition items (v : val) : M (list (string * val)) :=
  fun st => (dict_items (heap st) v, st).

(** [d.keys()], printed as the list of the keys. *)
Definition dict_keys (h : list obj) (v : val) : result val :=
  match v with
  | VJson (JObj kvs) => Ok (VJson (JArr ((fun kv => JStr (fst kv)) <$> kvs)))
  | VRef l =>
      match h !! l with
      | Some (ODict kvs) => Ok (VJson (JArr ((fun kv => JStr (fst kv)) <$> kvs)))
      | _ => Raise (AttributeError "keys")
      end
  | _ => Raise (AttributeError "keys")
  end.

Definition keys (v : val) : M val :=
  fun st => (dict_keys (heap st) v, st).

(** [seq[i]] on a list the model holds as a Rocq list (the pairs of [items]). *)
Definition list_index {A : Type} (l : list A) (i : Z) : M A :=
  lift (match py_index l i with Some x => Ok x | None => Raise IndexError end).

(** [r.json()] *)
Definition decoded (v : val) : result val :=
  match v with
  | VResp r =>
      match resp_json r with
      | Some j => Ok (VJson j)
      | None => Raise JSONDecodeError
      end
  | _ => Raise (AttributeError "json")
  end.

Definition response_json (v : val) : M val := lift (decoded v).

(** ** Encoding a value for the [json=] argument *)

(** [json.dumps] walks the value through the heap.  The fuel bounds the
    nesting of dicts and lists, as the interpreter's recursion limit does; a
    response object cannot be encoded. *)
Fixpoint encode (fuel : nat) (h : list obj) (v : val) : option json :=
  match v with
  | VJson j => Some j
  | VResp _ => None
  | VRef l =>
      match fuel with
      | O => None
      | S n =>
          match h !! l with
          | Some (ODict kvs) =>
              JObj <$> mapM (fun kv => pair (fst kv) <$> encode n h (snd kv)) kvs
          | Some (OList xs) => JArr <$> mapM (encode n h) xs
          | None => None
          end
      end
  end.

Arguments encode : simpl never.

Definition recursion_limit : nat := 1000.

(** ** The requests library against the remote service *)

Definition HTTPBasicAuth (username password : val) : val * val := (username, password).

Section Notebook.

(** The Data API: its answer to a request, given the requests made before. *)
Variable service : list Request -> Request -> result Response.

(** Python's [str()] of a value that is not a string, used by [str.format]. *)
Variable py_str : val -> string.

Definition send (req : Request) : M val :=
  fun k =>
    match service (sent k) req with
    | Ok r => (Ok (VResp r), log_request req k)
    | Raise e => (Raise e, log_request req k)
    end.

(** [requests.get(url, auth=auth)]: a URL that is not a string is refused
    before anything is sent. *)
Definition requests_get (url : val) (auth : val * val) : M val :=
  match url with
  | VJson (JStr u) => send (mkRequest GET u auth None)
  | _ => raise RequestException
  end.

(** [requests.post(url, auth=auth, json=body)] *)
Definition requests_post (url : val) (auth : val * val) (body : val) : M val :=
  match url with
  | VJson (JStr u) =>
      fun k =>
        match encode recursion_limit (heap k) body with
        | Some j => send (mkRequest POST u auth (Some j)) k
        | None => (Raise EncodeError, k)
        end
  | _ => raise RequestException
  end.

Definition format_field (v : val) : string :=
  match v with
  | VJson (JStr s) => s
  | _ => py_str v
  end.

(** ** The code cells, by execution count *)

Definition flt (q : Q) : val := VJson (JFloat q).

(** In [1]: Set Up API Key *)
Definition cell1_api_key : M unit :=
  v <- environ_get "PL_API_KEY" "" ;;
  if truthy v then
    v' <- environ_get "PL_API_KEY" "" ;;
    assign "API_KEY" (str v')
  else
    assign "API_KEY" (str "PLAKcaa4ce6cd0464a058d71353bf2bca50b").

(** In [2]: Define an Area of Interest *)
Definition cell2_aoi : M unit :=
  p1 <- new_list [flt (-121.59290313720705); flt 37.93444993515032] ;;
  p2 <- new_list [flt (-121.27017974853516); flt 37.93444993515032] ;;
  p3 <- new_list [flt (-121.27017974853516); flt 38.065932950547484] ;;
  p4 <- new_list [flt (-121.59290313720705); flt 38.065932950547484] ;;
  p5 <- new_list [flt (-121.59290313720705); flt 37.93444993515032] ;;
  ring <- new_list [p1; p2; p3; p4; p5] ;;
  coordinates <- new_list [ring] ;;
  d <- new_dict [("type", str "Polygon"); ("coordinates", coordinates)] ;;
  assign "geojson_geometry" d.

(** In [3]: Create Filters, statement by statement *)
Definition assign_geometry_filter : M unit :=
  geojson_geometry <- name "geojson_geometry" ;;
  d <- new_dict [("type", str "GeometryFilter");
                 ("field_name", str "geometry");
                 ("config", geojson_geometry)] ;;
  assign "geometry_filter" d.

Definition assign_date_range_filter : M unit :=
  c <- new_dict [("gte", str "2016-08-31T00:00:00.000Z");
                 ("lte", str "2016-09-01T00:00:00.000Z")] ;;
  d <- new_dict [("type", str "DateRangeFilter");
                 ("field_name", str "acquired");
                 ("config", c)] ;;
  assign "date_range_filter" d.

Definition assign_cloud_cover_filter : M unit :=
  c <- new_dict [("lte", flt 0.5)] ;;
  d <- new_dict [("type", str "RangeFilter");
                 ("field_name", str "cloud_cover");
                 ("config", c)] ;;
  assign "cloud_cover_filter" d.

Definition assign_combined_filter : M unit :=
  geometry_filter <- name "geometry_filter" ;;
  date_range_filter <- name "date_range_filter" ;;
  cloud_cover_filter <- name "cloud_cover_filter" ;;
  c <- new_list [geometry_filter; date_range_filter; cloud_cover_filter] ;;
  d <- new_dict [("type", str "AndFilter"); ("config", c)] ;;
  assign "combined_filter" d.

Definition cell3_filters : M unit :=
  assign_geometry_filter ;;
  assign_date_range_filter ;;
  assign_cloud_cover_filter ;;
  assign_combined_filter.

(** In [4]: Searching: Items and Assets, statement by statement *)
Definition assign_item_type : M unit :=
  assign "item_type" (str "PSScene").

Definition assign_search_request : M unit :=
  item_type <- name "item_type" ;;
  item_types <- new_list [item_type] ;;
  combined_filter <- name "combined_filter" ;;
  d <- new_dict [("item_types", item_types); ("filter", combined_filter)] ;;
  assign "search_request" d.

Definition assign_search_result : M unit :=
  API_KEY <- name "API_KEY" ;;
  search_request <- name "search_request" ;;
  r <- requests_post (str "https://api.planet.com/data/v1/quick-search")
         (HTTPBasicAuth API_KEY (str "")) search_request ;;
  assign "search_result" r.

Definition assign_geojson : M unit :=
  search_result <- name "search_result" ;;
  j <- response_json search_result ;;
  assign "geojson" j.

Definition print_first_result : M unit :=
  geojson <- name "geojson" ;;
  its <- items geojson ;;
  second <- list_index its 1 ;;
  first <- subscript (snd second) (KInt 0) ;;
  print first.

Definition cell4_search : M unit :=
  assign_item_type ;;
  assign_search_request ;;
  assign_search_result ;;
  assign_geojson ;;
  print_first_result.

(** In [5]: extract image IDs only *)
Definition cell5_image_ids : M unit :=
  geojson <- name "geojson" ;;
  features <- subscript geojson (KStr "features") ;;
  fs <- iterate features ;;
  ids <- traverse (fun feature => subscript feature (KStr "id")) fs ;;
  l <- new_list ids ;;
  assign "image_ids" l ;;
  image_ids <- name "image_ids" ;;
  print image_ids.

(** In [10]: grab the first image ID and list its assets *)
Definition cell10_assets : M unit :=
  image_ids <- name "image_ids" ;;
  x <- subscript image_ids (KInt 0) ;;
  assign "id0" x ;;
  item_type <- name "item_type" ;;
  id0 <- name "id0" ;;
  assign "id0_url"
    (str ("https://api.planet.com/data/v1/item-types/" ++ format_field item_type
          ++ "/items/" ++ format_field id0 ++ "/assets")) ;;
  id0_url <- name "id0_url" ;;
  API_KEY <- name "API_KEY" ;;
  r <- requests_get id0_url (HTTPBasicAuth API_KEY (str "")) ;;
  assign "result" r ;;
  res <- name "result" ;;
  j <- response_json res ;;
  ks <- keys j ;;
  print ks.

(** In [11]: the status of the asset *)
Definition cell11_status : M unit :=
  res <- name "result" ;;
  j <- response_json res ;;
  asset <- subscript j (KStr "ortho_analytic_4b") ;;
  status <- subscript asset (KStr "status") ;;
  print status.

(** In [12]: parse out the links and request activation *)
Definition cell12_activate : M unit :=
  res <- name "result" ;;
  j <- response_json res ;;
  asset <- subscript j (KStr "ortho_analytic_4b") ;;
  x <- subscript asset (KStr "_links") ;;
  assign "links" x ;;
  links <- name "links" ;;
  x <- subscript links (KStr "_self") ;;
  assign "self_link" x ;;
  links <- name "links" ;;
  x <- subscript links (KStr "activate") ;;
  assign "activation_link" x ;;
  activation_link <- name "activation_link" ;;
  API_KEY <- name "API_KEY" ;;
  r <- requests_get activation_link (HTTPBasicAuth API_KEY (str "")) ;;
  assign "activate_result" r.

(** In [13]: the activation status *)
Definition cell13_poll : M unit :=
  self_link <- name "self_link" ;;
  API_KEY <- name "API_KEY" ;;
  r <- requests_get self_link (HTTPBasicAuth API_KEY (str "")) ;;
  assign "activation_status_result" r ;;
  activation_status_result <- name "activation_status_result" ;;
  j <- response_json activation_status_result ;;
  status <- subscript j (KStr "status") ;;
  print status.

(** In [14]: the download link *)
Definition cell14_download_link : M unit :=
  activation_status_result <- name "activation_status_result" ;;
  j <- response_json activation_status_result ;;
  x <- subscript j (KStr "location") ;;
  assign "download_link" x ;;
  download_link <- name "download_link" ;;
  print download_link.

(** ** Running the notebook *)

(** A cell that raises stops there; what it bound before stays bound, and
    the next cell can still be run, as the recorded outputs show. *)
Definition run_cell (c : M unit) (k : kernel) : option exn * kernel :=
  match c k with
  | (Ok _, k') => (None, k')
  | (Raise e, k') => (Some e, k')
  end.

Fixpoint run_cells (cs : list (M unit)) (k : kernel) : list (option exn) * kernel :=
  match cs with
  | [] => ([], k)
  | c :: cs' =>
      let (o, k') := run_cell c k in
      let (os, k'') := run_cells cs' k' in
      (o :: os, k'')
  end.

Definition notebook : list (M unit) :=
  [cell1_api_key; cell2_aoi; cell3_filters; cell4_search; cell5_image_ids;
   cell10_assets; cell11_status; cell12_activate; cell13_poll;
   cell14_download_link].

End Notebook.

(** The statements of a cell are taken one at a time by the rules for [wp];
    [simpl] leaves them folded. *)
Arguments bind : simpl never.
Arguments ret : simpl never.
Arguments raise : simpl never.
Arguments lift : simpl never.
Arguments name : simpl never.
Arguments assign : simpl never.
Arguments alloc : simpl never.
Arguments new_dict : simpl never.
Arguments new_list : simpl never.
Arguments print : simpl never.
Arguments environ_get : simpl never.
Arguments subscript : simpl never.
Arguments iterate : simpl never.
Arguments items : simpl never.
Arguments keys : simpl never.
Arguments list_index : simpl never.
Arguments response_json : simpl never.
Arguments send : simpl never.
Arguments requests_get : simpl never.
Arguments requests_post : simpl never.

Definition fresh_kernel (env : gmap string string) : kernel :=
  mkKernel env [] [] [] [].

(** A service that answers the n-th request with the n-th entry of a script,
    whatever the request; past the script there is no connection. *)
Definition scripted (script : list (result Response)) : list Request -> Request -> result Response :=
  fun history _ => default (Raise RequestException) (script !! length history).

(** ** Reasoning about cell programs *)

(** [wp m Q k]: run from [k], the program [m] ends, with a value or an
    exception, in a state that satisfies [Q]. *)
Definition wp {A : Type} (m : M A) (Q : result A -> kernel -> Prop) (k : kernel) : Prop :=
  Q (fst (m k)) (snd (m k)).

(** The name [x] is bound to [v]. *)
Definition bound (k : kernel) (x : string) (v : val) : Prop :=
  dict_get (globals k) x = Some v.

(** The value [v] is a reference to the object [o]. *)
Definition points_to (k : kernel) (v : val) (o : obj) : Prop :=
  exists l, v = VRef l /\ heap k !! l = Some o.

(** The value [v] encodes to [j], at some nesting depth. *)
Definition encodes (h : list obj) (v : val) (j : json) : Prop :=
  exists n, encode n h v = Some j.

(** The key cell In [1] binds, as a function of the environment. *)
Definition api_key_of (env : gmap string string) : string :=
  let v := default "" (env !! "PL_API_KEY") in
  if truthy v then v else "PLAKcaa4ce6cd0464a058d71353bf2bca50b".

(** The request carries basic auth with this user name and an empty password. *)
Definition auth_is (user : val) (r : Request) : Prop :=
  req_auth r = HTTPBasicAuth user (str "").

(** ** The Data API's reading of a RangeFilter

    The filters are evaluated by the remote service, which is not code of
    the repository.  Its bounds compare the item's field with the bound as
    their names say: [gt], [gte], [lt], [lte]. *)
Definition bound_holds (op : string) (b x : Q) : bool :=
  if String.eqb op "gte" then Qle_bool b x
  else if String.eqb op "gt" then negb (Qle_bool x b)
  else if String.eqb op "lte" then Qle_bool x b
  else if String.eqb op "lt" then negb (Qle_bool b x)
  else false.

Definition number (j : json) : option Q :=
  match j with
  | JInt z => Some (inject_Z z)
  | JFloat q => Some q
  | _ => None
  end.

(** An item whose field is [x] passes the config when every bound holds. *)
Definition range_admits (config : json) (x : Q) : bool :=
  match config with
  | JObj kvs =>
      forallb (fun kv =>
                 match number (snd kv) with
                 | Some b => bound_holds (fst kv) b x
                 | None => false
                 end) kvs
  | _ => false
  end.

(** ** The poller the specification asks for *)

Module Poller.

(** Modelled from the spec: the statuses of an Asset (section 3).  The
    notebook has no such type; it prints the status string it is sent. *)
Inductive Status : Type := inactive | activating | active | failed.

(** Modelled from the spec: [RetrievalHandle{url, expiry}] (section 4.1),
    absent from the notebook. *)
Record RetrievalHandle : Type := mkHandle { url : string; expiry : nat }.

(** Modelled from the spec: the error kinds [poll] fails with (section 4.1),
    absent from the notebook. *)
Inductive PollError : Type := AuthError | NotFoundError | TransientError.

(** Modelled from the spec: the errors of [waitUntilActive] (sections 4.1
    and 7), absent from the notebook. *)
Inductive WaitError : Type :=
| Propagated (e : PollError)
| TimeoutError
| ActivationFailedError.

(** Modelled from the spec: what one [poll] observes of an asset, a status
    and, once active, the retrieval handle (section 3: the URL exists only
    while the status is active). *)
Inductive Observation : Type :=
| Inactive
| Activating
| Active (h : RetrievalHandle)
| Failed.

Definition status_of (o : Observation) : Status :=
  match o with
  | Inactive => inactive
  | Activating => activating
  | Active _ => active
  | Failed => failed
  end.

Inductive Answer : Type :=
| Seen (o : Observation)
| Fails (e : PollError).

(** Modelled from the spec: the simulated server of section 8, the answer to
    the n-th poll of an asset, counted from 0. *)
Definition Server : Type := string -> nat -> Answer.

Record Progress : Type := mkProgress { polls : nat; elapsed : nat }.

Definition polled (p : Progress) : Progress := mkProgress (S (polls p)) (elapsed p).

(** The wait between two attempts; none before the first. *)
Definition suspended (interval : nat) (p : Progress) : Progress :=
  match polls p with
  | O => p
  | S _ => mkProgress (polls p) (elapsed p + interval)
  end.

(** Modelled from the spec: [poll(asset) -> Status] (section 4.1), a single
    query of the current status. *)
Definition poll (srv : Server) (asset : string) (p : Progress) : Answer * Progress :=
  (srv asset (polls p), polled p).

(** Modelled from the spec: the loop of [waitUntilActive] (section 4.1).  It
    polls at a fixed interval until the status is active; it stops with
    [TimeoutError] when the attempts are used up, with
    [ActivationFailedError] on status failed, and hands on the error of a
    poll without another attempt.  The notebook has no such loop. *)
Fixpoint wait_loop (srv : Server) (asset : string) (interval attempts : nat)
    (p : Progress) : (RetrievalHandle + WaitError) * Progress :=
  match attempts with
  | O => (inr TimeoutError, p)
  | S rest =>
      match poll srv asset (suspended interval p) with
      | (Fails e, p') => (inr (Propagated e), p')
      | (Seen (Active h), p') => (inl h, p')
      | (Seen Failed, p') => (inr ActivationFailedError, p')
      | (Seen _, p') => wait_loop srv asset interval rest p'
      end
  end.

(** Modelled from the spec: [waitUntilActive(asset, interval, maxAttempts)
    -> RetrievalHandle] (section 4.1), absent from the notebook. *)
Definition waitUntilActive (srv : Server) (asset : string) (interval maxAttempts : nat)
    : (RetrievalHandle + WaitError) * Progress :=
  wait_loop srv asset interval maxAttempts (mkProgress 0 0).

(** The status is not final yet: the loop polls again. *)
Definition pending (a : Answer) : Prop :=
  a = Seen Inactive \/ a = Seen Activating.

(** The scenario of section 8: activating, activating, then active. *)
Definition sample_handle : RetrievalHandle :=
  mkHandle "https://api.planet.com/download" 3600.

Definition third_time_active : Server :=
  fun _ n =>
    match n with
    | 0 | 1 => Seen Activating
    | _ => Seen (Active sample_handle)
    end.

End Poller.

(** ** Sample answers of the service *)

Definition feature (id : string) : json :=
  JObj [("id", JStr id); ("type", JStr "Feature")].

Definition search_answer (ids : list string) : Response :=
  mkResponse (Some (JObj [("_links", JObj []);
                          ("features", JArr (feature <$> ids));
                          ("type", JStr "FeatureCollection")])).

Definition assets_answer (assets : list (string * json)) : Response :=
  mkResponse (Some (JObj assets)).

Definition asset_descriptor (status self activate : string) : json :=
  JObj [("_links", JObj [("_self", JStr self); ("activate", JStr activate)]);
        ("status", JStr status)].

Definition activating_answer : Response :=
  mkResponse (Some (JObj [("status", JStr "activating")])).

Definition active_answer (location : string) : Response :=
  mkResponse (Some (JObj [("location", JStr location); ("status", JStr "active")])).

(** A kernel in which In [10] has bound [result] to an assets response. *)
Definition kernel_with_assets (assets : list (string * json)) : kernel :=
  set_global "result" (VResp (assets_answer assets)) (fresh_kernel ∅).

(** What holds of the key whatever cells have been run: the environment is
    the one the kernel started with, [API_KEY] is unbound or bound to the key
    of that environment, and every request sent so far carried that key. *)
Definition keyed (env : gmap string string) (k : kernel) : Prop :=
  environ k = env /\
  (dict_get (globals k) "API_KEY" = None \/
   dict_get (globals k) "API_KEY" = Some (str (api_key_of env))) /\
  Forall (auth_is (str (api_key_of env))) (sent k).

(** The activation wait the specification describes, read on the poll cell:
    when the cell has run, the status it has shown last is "active". *)
Definition polls_until_active (cell : M unit) (k : kernel) : Prop :=
  last (stdout (snd (cell k))) = Some (str "active").

(** A kernel in which In [1] and In [12] have bound the key and the link. *)
Definition kernel_with_link (key self : string) : kernel :=
  set_global "self_link" (str self)
    (set_global "API_KEY" (str key) (fresh_kernel ∅)).

(** A service on which the asset is still activating at the first request
    and active at the second. *)
Definition turns_active : list Request -> Request -> result Response :=
  scripted [Ok activating_answer; Ok (active_answer "https://api.planet.com/download")].

(** A service on which the asset is active at once. *)
Definition already_active : list Request -> Request -> result Response :=
  scripted [Ok (active_answer "https://api.planet.com/download")].

(** A search with two results, then an item without assets, as recorded in
    the notebook's outputs. *)
Definition recorded_service : list Request -> Request -> result Response :=
  scripted [Ok (search_answer ["20160831_212705_0c43"; "20160831_212703_0c43"]);
            Ok (assets_answer [])].

Definition plain_str (v : val) : string := "".

(** [k'] is [k] after statements that bind no other names than [xs]: every
    object of [k] is still at its address, unchanged, and every other name
    is bound as it was. *)
Definition grows (xs : list string) (k k' : kernel) : Prop :=
  heap k `prefix_of` heap k' /\
  (forall x, x ∉ xs -> dict_get (globals k') x = dict_get (globals k) x).

(** The same, for statements that neither send nor print. *)
Definition extends (xs : list string) (k k' : kernel) : Prop :=
  grows xs k k' /\
  environ k' = environ k /\ sent k' = sent k /\ stdout k' = stdout k.

(** The objects In [3] has built and the names it has bound, with [g] the
    value of [geojson_geometry]: three child filters and the conjunction,
    whose config is the list of the children's own references. *)
Definition filters_built (g : val) (k : kernel) : Prop :=
  exists gf df dc cf cc comb cfg,
    (bound k "geometry_filter" (VRef gf) /\
     heap k !! gf = Some (ODict [("type", str "GeometryFilter");
                                 ("field_name", str "geometry");
                                 ("config", g)])) /\
    (bound k "date_range_filter" (VRef df) /\
     heap k !! df = Some (ODict [("type", str "DateRangeFilter");
                                 ("field_name", str "acquired");
                                 ("config", VRef dc)]) /\
     heap k !! dc = Some (ODict [("gte", str "2016-08-31T00:00:00.000Z");
                                 ("lte", str "2016-09-01T00:00:00.000Z")])) /\
    (bound k "cloud_cover_filter" (VRef cf) /\
     heap k !! cf = Some (ODict [("type", str "RangeFilter");
                                 ("field_name", str "cloud_cover");
                                 ("config", VRef cc)]) /\
     heap k !! cc = Some (ODict [("lte", flt 0.5)])) /\
    (bound k "combined_filter" (VRef comb) /\
     heap k !! comb = Some (ODict [("type", str "AndFilter"); ("config", VRef cfg)]) /\
     heap k !! cfg = Some (OList [VRef gf; VRef df; VRef cf])).

(** ** What the displays of In [2] to In [4] encode to *)

Definition geojson_geometry_json : json :=
  JObj [("type", JStr "Polygon");
        ("coordinates",
         JArr [JArr [JArr [JFloat (-121.59290313720705); JFloat 37.93444993515032];
                     JArr [JFloat (-121.27017974853516); JFloat 37.93444993515032];
                     JArr [JFloat (-121.27017974853516); JFloat 38.065932950547484];
                     JArr [JFloat (-121.59290313720705); JFloat 38.065932950547484];
                     JArr [JFloat (-121.59290313720705); JFloat 37.93444993515032]]])].

Definition geometry_filter_json (geometry : json) : json :=
  JObj [("type", JStr "GeometryFilter");
        ("field_name", JStr "geometry");
        ("config", geometry)].

Definition date_range_filter_json : json :=
  JObj [("type", JStr "DateRangeFilter");
        ("field_name", JStr "acquired");
        ("config", JObj [("gte", JStr "2016-08-31T00:00:00.000Z");
                         ("lte", JStr "2016-09-01T00:00:00.000Z")])].

Definition cloud_cover_filter_json : json :=
  JObj [("type", JStr "RangeFilter");
        ("field_name", JStr "cloud_cover");
        ("config", JObj [("lte", JFloat 0.5)])].

Definition and_filter_json (children : list json) : json :=
  JObj [("type", JStr "AndFilter"); ("config", JArr children)].

Definition search_request_json (filter : json) : json :=
  JObj [("item_types", JArr [JStr "PSScene"]); ("filter", filter)].

(** The tree the notebook posts: the conjunction of the three filters of
    In [3] over the geometry of In [2]. *)
Definition combined_filter_json : json :=
  and_filter_json [geometry_filter_json geojson_geometry_json;
                   date_range_filter_json;
                   cloud_cover_filter_json].

(** A kernel after a search that found the features [fs]. *)
Definition kernel_with_features (fs : list json) : kernel :=
  set_global "geojson" (VJson (JObj [("features", JArr fs)])) (fresh_kernel ∅).

Definition polling_kernel : kernel :=
  kernel_with_link "key" "https://api.planet.com/self".

Definition self_request : Request :=
  mkRequest GET "https://api.planet.com/self" (HTTPBasicAuth (str "key") (str "")) None.

Definition two_features : list json :=
  [feature "20160831_212705_0c43"; feature "20160831_212703_0c43"].

(** ** What a cell may do to the kernel *)

(** [k'] is [k] after a cell that sends at most [n] requests: the
    environment is the same, the heap, the requests sent and the output have
    only grown at their ends. *)
Definition within (n : nat) (k k' : kernel) : Prop :=
  environ k' = environ k /\
  heap k `prefix_of` heap k' /\
  stdout k `prefix_of` stdout k' /\
  exists reqs, sent k' = sent k ++ reqs /\ length reqs <= n.

(** The requests the cells build. *)
Definition search_post (key : val) (filter : json) : Request :=
  mkRequest POST "https://api.planet.com/data/v1/quick-search"
    (HTTPBasicAuth key (str "")) (Some (search_request_json filter)).

Definition link_get (key : val) (url : string) : Request :=
  mkRequest GET url (HTTPBasicAuth key (str "")) None.

Definition assets_url (item_type id : string) : string :=
  "https://api.planet.com/data/v1/item-types/" ++ item_type
  ++ "/items/" ++ id ++ "/assets".

(** A service on which everything goes well: a search with two results, the
    asset of the first listed with its links, the activation acknowledged
    with an empty body, the asset active at the first status request. *)
Definition obliging_service : list Request -> Request -> result Response :=
  scripted
    [Ok (search_answer ["20160831_212705_0c43"; "20160831_212703_0c43"]);
     Ok (assets_answer
           [("ortho_analytic_4b",
             asset_descriptor "inactive" "https://api.planet.com/self"
               "https://api.planet.com/activate")]);
     Ok (mkResponse None);
     Ok (active_answer "https://api.planet.com/download")].

(** The kernel after In [1] and In [2], and after In [3] as well, started
    without the environment variable. *)
Definition kernel_with_area : kernel :=
  snd (run_cells [cell1_api_key; cell2_aoi] (fresh_kernel ∅)).

Definition kernel_with_filters : kernel := snd (cell3_filters kernel_with_area).

(** A kernel in which In [4] and In [5] have bound the item type and the ids
    of two images. *)
Definition kernel_with_ids : kernel :=
  mkKernel ∅
    [("image_ids", VRef 0); ("item_type", str "PSScene"); ("API_KEY", str "key")]
    [OList [str "20160831_212705_0c43"; str "20160831_212703_0c43"]] [] [].

(** A kernel in which In [10] has found the asset, inactive, with its
    links. *)
Definition kernel_with_asset : kernel :=
  set_global "API_KEY" (str "key")
    (kernel_with_assets
       [("ortho_analytic_4b",
         asset_descriptor "inactive" "https://api.planet.com/self"
           "https://api.planet.com/activate")]).

(** A service that answers in the shape of the Data API: features with
    their seven entries, the asset listed after another one. *)
Definition scene (id : string) : json :=
  JObj [("_links", JObj []); ("_permissions", JArr []); ("assets", JArr []);
        ("geometry", JNull); ("id", JStr id); ("properties", JObj []);
        ("type", JStr "Feature")].

Definition data_api_service : list Request -> Request -> result Response :=
  scripted
    [Ok (mkResponse
           (Some (JObj [("_links", JObj []);
                        ("features", JArr [scene "20160831_212705_0c43";
                                           scene "20160831_212703_0c43"]);
                        ("type", JStr "FeatureCollection")])));
     Ok (assets_answer
           [("basic_analytic_4b",
             asset_descriptor "active" "https://api.planet.com/basic/self"
               "https://api.planet.com/basic/activate");
            ("ortho_analytic_4b",
             asset_descriptor "inactive" "https://api.planet.com/self"
               "https://api.planet.com/activate")]);
     Ok (mkResponse None);
     Ok (active_answer "https://api.planet.com/download")].

(** * Properties *)

(** ** Rules for [wp] *)

Lemma wp_ret {A : Type} (a : A) Q k : Q (Ok a) k -> wp (ret a) Q k.
Proof. done. Qed.

Lemma wp_raise {A : Type} e (Q : result A -> kernel -> Prop) k :
  Q (Raise e) k -> wp (raise e) Q k.
Proof. done. Qed.

Lemma wp_lift {A : Type} (r : result A) Q k : Q r k -> wp (lift r) Q k.
Proof. done. Qed.

Lemma wp_bind {A B : Type} (m : M A) (f : A -> M B) Q k :
  wp m (fun r k' =>
          match r with
          | Ok a => wp (f a) Q k'
          | Raise e => Q (Raise e) k'
          end) k ->
  wp (bind m f) Q k.
Proof. unfold wp, bind. by destruct (m k) as [[a|e] k']. Qed.

Lemma wp_name x Q k :
  match dict_get (globals k) x with
  | Some v => Q (Ok v) k
  | None => Q (Raise (NameError x)) k
  end ->
  wp (name x) Q k.
Proof. unfold wp, name. by destruct (dict_get (globals k) x). Qed.

Lemma wp_assign x v Q k : Q (Ok tt) (set_global x v k) -> wp (assign x v) Q k.
Proof. done. Qed.

Lemma wp_alloc o Q k :
  Q (Ok (VRef (length (heap k)))) (push_obj o k) -> wp (alloc o) Q k.
Proof. done. Qed.

Lemma wp_print v Q k : Q (Ok tt) (emit v k) -> wp (print v) Q k.
Proof. done. Qed.

Lemma wp_environ_get x d Q k :
  Q (Ok (default d (environ k !! x))) k -> wp (environ_get x d) Q k.
Proof. done. Qed.

Lemma wp_subscript v key Q k :
  Q (getitem (heap k) v key) k -> wp (subscript v key) Q k.
Proof. done. Qed.

Lemma wp_iterate v Q k : Q (elements (heap k) v) k -> wp (iterate v) Q k.
Proof. done. Qed.

Lemma wp_items v Q k : Q (dict_items (heap k) v) k -> wp (items v) Q k.
Proof. done. Qed.

Lemma wp_keys v Q k : Q (dict_keys (heap k) v) k -> wp (keys v) Q k.
Proof. done. Qed.

(** A comprehension over subscriptions reads the heap and changes nothing. *)
Lemma traverse_subscript_state key vs k :
  snd (traverse (fun v => subscript v key) vs k) = k.
Proof.
  induction vs as [|v vs IH]; [done|].
  cbn [traverse]. unfold bind at 1, subscript at 1.
  destruct (getitem (heap k) v key) as [a|e]; [|done].
  unfold bind at 1.
  destruct (traverse _ vs k) as [[bs|e] k2]; simpl in IH; by subst k2.
Qed.

Lemma wp_traverse_subscript key vs Q k :
  Q (fst (traverse (fun v => subscript v key) vs k)) k ->
  wp (traverse (fun v => subscript v key) vs) Q k.
Proof. unfold wp. by rewrite traverse_subscript_state. Qed.

Section Requests.

Variable service : list Request -> Request -> result Response.

Lemma wp_send req Q k :
  match service (sent k) req with
  | Ok r => Q (Ok (VResp r)) (log_request req k)
  | Raise e => Q (Raise e) (log_request req k)
  end ->
  wp (send service req) Q k.
Proof. unfold wp, send. by destruct (service (sent k) req). Qed.

Lemma wp_requests_get url auth Q k :
  match url with
  | VJson (JStr u) => wp (send service (mkRequest GET u auth None)) Q k
  | _ => Q (Raise RequestException) k
  end ->
  wp (requests_get service url auth) Q k.
Proof. unfold requests_get. by repeat case_match. Qed.

Lemma wp_requests_post url auth body Q k :
  match url with
  | VJson (JStr u) =>
      match encode recursion_limit (heap k) body with
      | Some j => wp (send service (mkRequest POST u auth (Some j))) Q k
      | None => Q (Raise EncodeError) k
      end
  | _ => Q (Raise RequestException) k
  end ->
  wp (requests_post service url auth body) Q k.
Proof.
  unfold requests_post. destruct url as [[]| |]; try done.
  unfold wp. by destruct (encode _ _ _).
Qed.

End Requests.

(** One step of a cell program. *)
Ltac wp_step :=
  lazymatch goal with
  | |- wp (bind _ _) _ _ => apply wp_bind
  | |- wp (ret _) _ _ => apply wp_ret
  | |- wp (raise _) _ _ => apply wp_raise
  | |- wp (lift _) _ _ => apply wp_lift
  | |- wp (name _) _ _ => apply wp_name
  | |- wp (assign _ _) _ _ => apply wp_assign
  | |- wp (new_dict _) _ _ => apply wp_alloc
  | |- wp (new_list _) _ _ => apply wp_alloc
  | |- wp (print _) _ _ => apply wp_print
  | |- wp (environ_get _ _) _ _ => apply wp_environ_get
  | |- wp (subscript _ _) _ _ => apply wp_subscript
  | |- wp (iterate _) _ _ => apply wp_iterate
  | |- wp (items _) _ _ => apply wp_items
  | |- wp (keys _) _ _ => apply wp_keys
  | |- wp (list_index _ _) _ _ => apply wp_lift
  | |- wp (response_json _) _ _ => apply wp_lift
  | |- wp (traverse _ _) _ _ => apply wp_traverse_subscript
  | |- wp (send _ _) _ _ => apply wp_send
  | |- wp (requests_get _ _ _) _ _ => apply wp_requests_get
  | |- wp (requests_post _ _ _ _) _ _ => apply wp_requests_post
  end.

(** Run a cell to its ends: take the steps, use what is known of a
    scrutinee, and split on the others. *)
Ltac wp_scrutinee x :=
  lazymatch x with
  | match ?y with _ => _ end => wp_scrutinee y
  | _ =>
      first [ match goal with H : x = _ |- _ => rewrite H end
            | destruct x eqn:? ]
  end.

Ltac wp_case :=
  match goal with
  | |- match ?x with _ => _ end => wp_scrutinee x
  | |- wp (match ?x with _ => _ end) _ _ => wp_scrutinee x
  end.

Ltac wp_run := repeat first [ wp_step | progress simpl | wp_case ].

Lemma wp_eq {A : Type} (m : M A) r0 k0 k :
  wp m (fun r k' => r = r0 /\ k' = k0) k -> m k = (r0, k0).
Proof. unfold wp. destruct (m k) as [r k']. simpl. by intros [-> ->]. Qed.
(** ** Encoding *)

Lemma encode_json n h j : encode n h (VJson j) = Some j.
Proof. destruct n; reflexivity. Qed.

Lemma encode_resp n h r : encode n h (VResp r) = None.
Proof. destruct n; reflexivity. Qed.

Lemma encode_ref_O h l : encode 0 h (VRef l) = None.
Proof. reflexivity. Qed.

Lemma encode_ref_S n h l :
  encode (S n) h (VRef l) =
    match h !! l with
    | Some (ODict kvs) =>
        JObj <$> mapM (fun kv => pair (fst kv) <$> encode n h (snd kv)) kvs
    | Some (OList xs) => JArr <$> mapM (encode n h) xs
    | None => None
    end.
Proof. reflexivity. Qed.

(** More fuel and a longer heap encode the same value the same way. *)
Lemma encode_extends n n' h h' v j :
  n <= n' -> h `prefix_of` h' ->
  encode n h v = Some j -> encode n' h' v = Some j.
Proof.
  intros Hn Hh. revert n' v j Hn.
  induction n as [|n IH]; intros n' v j Hn; destruct v as [j0|l|r];
    rewrite ?encode_json, ?encode_resp, ?encode_ref_O; try done.
  destruct n' as [|n']; [lia|].
  assert (forall w j', encode n h w = Some j' -> encode n' h' w = Some j') as IH'.
  { intros w j'. apply IH. lia. }
  rewrite !encode_ref_S.
  destruct (h !! l) as [o|] eqn:Hl; [|done].
  rewrite (prefix_lookup_Some _ _ _ _ Hl Hh).
  destruct o as [kvs|xs]; intros Hj;
    apply fmap_Some in Hj as (ys & Hys & ->);
    apply mapM_Some in Hys; apply fmap_Some; eexists; split; [|done| |done];
    apply mapM_Some; eapply Forall2_impl; [done| |done|].
  - intros kv kj Hkv. apply fmap_Some in Hkv as (j' & Hj' & ->).
    apply fmap_Some. eauto.
  - eauto.
Qed.

Lemma encodes_extends h h' v j :
  h `prefix_of` h' -> encodes h v j -> encodes h' v j.
Proof. intros Hh [n Hn]. exists n. by eapply encode_extends. Qed.

Lemma encodes_functional h v j j' : encodes h v j -> encodes h v j' -> j = j'.
Proof.
  intros [n Hn] [n' Hn'].
  apply (encode_extends n (n `max` n') h h) in Hn; [|lia|done].
  apply (encode_extends n' (n `max` n') h h) in Hn'; [|lia|done].
  congruence.
Qed.

Lemma encodes_json h j : encodes h (VJson j) j.
Proof. exists 0. apply encode_json. Qed.

(** A list encodes to the array of what its elements encode to. *)
Lemma encodes_list h l xs js :
  h !! l = Some (OList xs) ->
  Forall2 (encodes h) xs js ->
  encodes h (VRef l) (JArr js).
Proof.
  intros Hl Hxs.
  assert (exists n, Forall2 (fun x j => encode n h x = Some j) xs js) as [n Hn].
  { clear Hl. induction Hxs as [|x j xs js Hx Hxs IH].
    { by exists 0. }
    destruct Hx as [m Hm], IH as [n IH].
    exists (m `max` n). constructor.
    - apply (encode_extends m _ h h); [lia|done|done].
    - eapply Forall2_impl; [done|]. intros x' j' Hx'.
      apply (encode_extends n _ h h); [lia|done|done]. }
  exists (S n). rewrite encode_ref_S, Hl.
  apply mapM_Some in Hn. by rewrite Hn.
Qed.

(** A dict encodes to the object of what its values encode to, key by key. *)
Lemma encodes_dict h l kvs kjs :
  h !! l = Some (ODict kvs) ->
  Forall2 (fun kv kj => fst kv = fst kj /\ encodes h (snd kv) (snd kj)) kvs kjs ->
  encodes h (VRef l) (JObj kjs).
Proof.
  intros Hl Hkvs.
  assert (exists n, Forall2 (fun kv kj => pair (fst kv) <$> encode n h (snd kv) = Some kj)
                      kvs kjs) as [n Hn].
  { clear Hl. induction Hkvs as [|[k v] [k' j] kvs kjs Hkv Hkvs IH].
    { by exists 0. }
    destruct Hkv as [Hk [m Hm]], IH as [n IH].
    simpl in *. subst k'. exists (m `max` n). constructor.
    - simpl. by rewrite (encode_extends m (m `max` n) h h v j) by (lia || done).
    - eapply Forall2_impl; [done|]. intros [k1 v1] kj Hkj. simpl in *.
      apply fmap_Some in Hkj as (j1 & Hj1 & ->).
      by rewrite (encode_extends n (m `max` n) h h v1 j1) by (lia || done). }
  exists (S n). rewrite encode_ref_S, Hl.
  apply mapM_Some in Hn. by rewrite Hn.
Qed.

(** ** In [11] and In [12]: an asset that is not there *)

(** C1: when the assets response lacks the requested asset name, as the
    empty mapping does, the status cell stops with the [KeyError] of the
    failed lookup, uncaught; it prints nothing and leaves the kernel as it
    was.  So does the cell that parses the links, before it sends anything.
    No error of the notebook's own is produced. *)
Theorem status_of_missing_asset_is_KeyError
    (service : list Request -> Request -> result Response) k r assets :
  bound k "result" (VResp r) ->
  resp_json r = Some (JObj assets) ->
  dict_get assets "ortho_analytic_4b" = None ->
  cell11_status k = (Raise (KeyError (KStr "ortho_analytic_4b")), k) /\
  cell12_activate service k = (Raise (KeyError (KStr "ortho_analytic_4b")), k).
Proof.
  unfold bound. intros Hres Hjson Hmiss. split; apply wp_eq.
  - unfold cell11_status. wp_run. done.
  - unfold cell12_activate. wp_run. done.
Qed.

Lemma status_of_missing_asset_is_KeyError_witness :
  cell11_status (kernel_with_assets []) =
    (Raise (KeyError (KStr "ortho_analytic_4b")), kernel_with_assets []) /\
  cell12_activate recorded_service (kernel_with_assets []) =
    (Raise (KeyError (KStr "ortho_analytic_4b")), kernel_with_assets []).
Proof.
  apply (status_of_missing_asset_is_KeyError recorded_service _ (assets_answer []) []);
    reflexivity.
Defined.

(** The outcomes recorded in the notebook, cell by cell: with the search
    answered and no asset listed for the first image, In [11] and In [12]
    stop with the [KeyError], In [13] and In [14] with a [NameError]. *)
Example recorded_outcomes :
  fst (run_cells (notebook recorded_service plain_str) (fresh_kernel ∅)) =
    [None; None; None; None; None; None;
     Some (KeyError (KStr "ortho_analytic_4b"));
     Some (KeyError (KStr "ortho_analytic_4b"));
     Some (NameError "self_link");
     Some (NameError "activation_status_result")].
Proof. vm_compute. reflexivity. Qed.

(** ** Authentication *)

Ltac keyed_finish :=
  unfold keyed; simpl; split_and!;
  [ assumption
  | by auto
  | first [ assumption
          | apply Forall_app; split; [assumption | by repeat constructor] ] ].

Section Authentication.

Variable service : list Request -> Request -> result Response.
Variable py_str : val -> string.
Variable env : gmap string string.

Lemma keyed_cell1 k : keyed env k -> keyed env (snd (cell1_api_key k)).
Proof.
  intros (He & HK & HS). change (wp cell1_api_key (fun _ k' => keyed env k') k).
  unfold cell1_api_key. wp_run; (split_and!; [done| |done]); right; simpl;
    unfold api_key_of; rewrite <- He; by rewrite Heqb.
Qed.

Lemma keyed_cell2 k : keyed env k -> keyed env (snd (cell2_aoi k)).
Proof.
  intros (He & HK & HS). change (wp cell2_aoi (fun _ k' => keyed env k') k).
  unfold cell2_aoi. wp_run. keyed_finish.
Qed.

Lemma keyed_cell3 k : keyed env k -> keyed env (snd (cell3_filters k)).
Proof.
  intros (He & HK & HS). change (wp cell3_filters (fun _ k' => keyed env k') k).
  unfold cell3_filters, assign_geometry_filter, assign_date_range_filter,
    assign_cloud_cover_filter, assign_combined_filter.
  wp_run; keyed_finish.
Qed.

Lemma keyed_cell4 k : keyed env k -> keyed env (snd (cell4_search service k)).
Proof.
  intros (He & HK & HS). change (wp (cell4_search service) (fun _ k' => keyed env k') k).
  unfold cell4_search, assign_item_type, assign_search_request,
    assign_search_result, assign_geojson, print_first_result.
  destruct HK as [HK|HK]; wp_run; keyed_finish.
Qed.

Lemma keyed_cell5 k : keyed env k -> keyed env (snd (cell5_image_ids k)).
Proof.
  intros (He & HK & HS). change (wp cell5_image_ids (fun _ k' => keyed env k') k).
  unfold cell5_image_ids. wp_run; keyed_finish.
Qed.

Lemma keyed_cell10 k : keyed env k -> keyed env (snd (cell10_assets service py_str k)).
Proof.
  intros (He & HK & HS).
  change (wp (cell10_assets service py_str) (fun _ k' => keyed env k') k).
  unfold cell10_assets. destruct HK as [HK|HK]; wp_run; keyed_finish.
Qed.

Lemma keyed_cell11 k : keyed env k -> keyed env (snd (cell11_status k)).
Proof.
  intros (He & HK & HS). change (wp cell11_status (fun _ k' => keyed env k') k).
  unfold cell11_status. wp_run; keyed_finish.
Qed.

Lemma keyed_cell12 k : keyed env k -> keyed env (snd (cell12_activate service k)).
Proof.
  intros (He & HK & HS).
  change (wp (cell12_activate service) (fun _ k' => keyed env k') k).
  unfold cell12_activate. destruct HK as [HK|HK]; wp_run; keyed_finish.
Qed.

Lemma keyed_cell13 k : keyed env k -> keyed env (snd (cell13_poll service k)).
Proof.
  intros (He & HK & HS).
  change (wp (cell13_poll service) (fun _ k' => keyed env k') k).
  unfold cell13_poll. destruct HK as [HK|HK]; wp_run; keyed_finish.
Qed.

Lemma keyed_cell14 k : keyed env k -> keyed env (snd (cell14_download_link k)).
Proof.
  intros (He & HK & HS). change (wp cell14_download_link (fun _ k' => keyed env k') k).
  unfold cell14_download_link. wp_run; keyed_finish.
Qed.

Lemma keyed_notebook c k :
  c ∈ notebook service py_str -> keyed env k -> keyed env (snd (c k)).
Proof.
  unfold notebook. rewrite !elem_of_cons, elem_of_nil.
  intros [->|[->|[->|[->|[->|[->|[->|[->|[->|[->|[]]]]]]]]]]];
    eauto using keyed_cell1, keyed_cell2, keyed_cell3, keyed_cell4, keyed_cell5,
      keyed_cell10, keyed_cell11, keyed_cell12, keyed_cell13, keyed_cell14.
Qed.

Lemma run_cells_state cs k :
  snd (run_cells cs k) = foldl (fun k' c => snd (c k')) k cs.
Proof.
  revert k. induction cs as [|c cs IH]; intros k; [done|].
  simpl. unfold run_cell. specialize (IH (snd (c k))).
  destruct (c k) as [[[]|e] k']; simpl in *;
    by destruct (run_cells cs k').
Qed.

Lemma keyed_run cs k :
  Forall (fun c => c ∈ notebook service py_str) cs ->
  keyed env k -> keyed env (snd (run_cells cs k)).
Proof.
  rewrite run_cells_state. intros Hcs. revert k.
  induction Hcs as [|c cs Hc _ IH]; intros k Hk; [done|].
  simpl. by apply IH, keyed_notebook.
Qed.

End Authentication.

(** ** In [13] and In [14]: the status and the download link *)

Section Activation.

Variable service : list Request -> Request -> result Response.

Lemma poll_cell_sends_at_most_once k :
  exists reqs,
    sent (snd (cell13_poll service k)) = sent k ++ reqs /\ length reqs <= 1.
Proof.
  change (wp (cell13_poll service)
            (fun _ k' => exists reqs, sent k' = sent k ++ reqs /\ length reqs <= 1) k).
  unfold cell13_poll. wp_run;
    first [ exists []; split; [by rewrite app_nil_r | simpl; lia]
          | eexists; split; [reflexivity | simpl; lia] ].
Qed.

Lemma poll_cell_run k url key r j s :
  bound k "self_link" (str url) ->
  bound k "API_KEY" key ->
  service (sent k) (mkRequest GET url (HTTPBasicAuth key (str "")) None) = Ok r ->
  resp_json r = Some j ->
  json_getitem j (KStr "status") = Ok s ->
  cell13_poll service k =
    (Ok tt,
     emit (VJson s)
       (set_global "activation_status_result" (VResp r)
          (log_request (mkRequest GET url (HTTPBasicAuth key (str "")) None) k))).
Proof.
  unfold bound. intros Hlink Hkey Hsvc Hjson Hstatus.
  apply wp_eq. unfold cell13_poll. wp_run. done.
Qed.

Lemma poll_cell_sends_the_get k url key :
  bound k "self_link" (str url) ->
  bound k "API_KEY" key ->
  sent (snd (cell13_poll service k)) =
    sent k ++ [mkRequest GET url (HTTPBasicAuth key (str "")) None].
Proof.
  unfold bound. intros Hlink Hkey.
  change (wp (cell13_poll service)
            (fun _ k' =>
               sent k' = sent k ++ [mkRequest GET url (HTTPBasicAuth key (str "")) None]) k).
  unfold cell13_poll. wp_run; done.
Qed.

(** C2, amended: the status cell asks once.  Whatever the kernel and the
    service, it sends at most one request; with the link and the key bound
    it sends exactly the GET of the self link; and when that is answered
    with a status, it prints the status of that one response, whatever it
    is, and ends.  There is no loop, no interval and no second request. *)
Theorem poll_cell_asks_once k :
  (exists reqs,
     sent (snd (cell13_poll service k)) = sent k ++ reqs /\ length reqs <= 1) /\
  (forall url key,
     bound k "self_link" (str url) ->
     bound k "API_KEY" key ->
     sent (snd (cell13_poll service k)) =
       sent k ++ [mkRequest GET url (HTTPBasicAuth key (str "")) None]) /\
  (forall url key r j s,
     bound k "self_link" (str url) ->
     bound k "API_KEY" key ->
     service (sent k) (mkRequest GET url (HTTPBasicAuth key (str "")) None) = Ok r ->
     resp_json r = Some j ->
     json_getitem j (KStr "status") = Ok s ->
     cell13_poll service k =
       (Ok tt,
        emit (VJson s)
          (set_global "activation_status_result" (VResp r)
             (log_request (mkRequest GET url (HTTPBasicAuth key (str "")) None) k)))).
Proof.
  split_and!;
    [apply poll_cell_sends_at_most_once | apply poll_cell_sends_the_get | apply poll_cell_run].
Qed.

Lemma download_link_cell_run k r j u :
  bound k "activation_status_result" (VResp r) ->
  resp_json r = Some j ->
  json_getitem j (KStr "location") = Ok u ->
  cell14_download_link k =
    (Ok tt, emit (VJson u) (set_global "download_link" (VJson u) k)).
Proof.
  unfold bound. intros Hres Hjson Hloc.
  apply wp_eq. unfold cell14_download_link. wp_run. done.
Qed.

Lemma poll_cell_binds_response k url key r :
  bound k "self_link" (str url) ->
  bound k "API_KEY" key ->
  service (sent k) (mkRequest GET url (HTTPBasicAuth key (str "")) None) = Ok r ->
  bound (snd (cell13_poll service k)) "activation_status_result" (VResp r).
Proof.
  unfold bound. intros Hlink Hkey Hsvc.
  change (wp (cell13_poll service)
            (fun _ k' => dict_get (globals k') "activation_status_result" = Some (VResp r)) k).
  unfold cell13_poll. wp_run; done.
Qed.

(** C5: the download link is the [location] field of the response to the
    GET of the self link, as the service sent it: In [14] binds
    [download_link] to that very value, prints it, and sends nothing. *)
Theorem download_link_is_location k url key r j u :
  bound k "self_link" (str url) ->
  bound k "API_KEY" key ->
  service (sent k) (mkRequest GET url (HTTPBasicAuth key (str "")) None) = Ok r ->
  resp_json r = Some j ->
  json_getitem j (KStr "location") = Ok u ->
  let k13 := snd (cell13_poll service k) in
  bound k13 "activation_status_result" (VResp r) /\
  cell14_download_link k13 =
    (Ok tt, emit (VJson u) (set_global "download_link" (VJson u) k13)).
Proof.
  intros Hlink Hkey Hsvc Hjson Hloc k13.
  assert (bound k13 "activation_status_result" (VResp r)) as Hres
    by by eapply poll_cell_binds_response.
  split; [done|]. by eapply download_link_cell_run.
Qed.

End Activation.

Lemma poll_cell_asks_once_witness :
  cell13_poll turns_active polling_kernel =
    (Ok tt,
     emit (str "activating")
       (set_global "activation_status_result" (VResp activating_answer)
          (log_request self_request polling_kernel))).
Proof.
  apply (proj2 (proj2 (poll_cell_asks_once turns_active polling_kernel))
           "https://api.planet.com/self" (str "key") activating_answer
           (JObj [("status", JStr "activating")]) (JStr "activating"));
    reflexivity.
Defined.

(** C2 as stated fails: on a service that answers "activating" and would
    answer "active" to a second request, the cell sends one request, shows
    "activating" and ends. *)
Lemma poll_cell_does_not_wait :
  length (sent (snd (cell13_poll turns_active polling_kernel))) = 1 /\
  stdout (snd (cell13_poll turns_active polling_kernel)) = [str "activating"] /\
  turns_active (sent (snd (cell13_poll turns_active polling_kernel))) self_request
    = Ok (active_answer "https://api.planet.com/download") /\
  ~ polls_until_active (cell13_poll turns_active) polling_kernel.
Proof. vm_compute. split_and!; try reflexivity. discriminate. Qed.

Lemma download_link_is_location_witness :
  bound (snd (cell13_poll already_active polling_kernel)) "activation_status_result"
    (VResp (active_answer "https://api.planet.com/download")) /\
  cell14_download_link (snd (cell13_poll already_active polling_kernel)) =
    (Ok tt,
     emit (str "https://api.planet.com/download")
       (set_global "download_link" (str "https://api.planet.com/download")
          (snd (cell13_poll already_active polling_kernel)))).
Proof.
  apply (download_link_is_location already_active polling_kernel
           "https://api.planet.com/self" (str "key")
           (active_answer "https://api.planet.com/download")
           (JObj [("location", JStr "https://api.planet.com/download");
                  ("status", JStr "active")])
           (JStr "https://api.planet.com/download"));
    reflexivity.
Defined.

(** ** In [5] and In [10]: the image ids and the first of them *)

Lemma traverse_subscript_ok key vs xs k :
  Forall2 (fun v x => getitem (heap k) v key = Ok x) vs xs ->
  fst (traverse (fun v => subscript v key) vs k) = Ok xs.
Proof.
  induction 1 as [|v x vs xs Hv _ IH]; [done|].
  cbn [traverse]. unfold bind at 1, subscript at 1. rewrite Hv.
  unfold bind at 1.
  pose proof (traverse_subscript_state key vs k) as Hk.
  destruct (traverse _ vs k) as [[bs|e] k2]; simpl in *; by simplify_eq.
Qed.

(** The comprehension of In [5] keeps the order of the features. *)
Lemma image_ids_cell_run k g fs ids :
  bound k "geojson" (VJson g) ->
  json_getitem g (KStr "features") = Ok (JArr fs) ->
  Forall2 (fun f i => json_getitem f (KStr "id") = Ok i) fs ids ->
  cell5_image_ids k =
    (Ok tt,
     emit (VRef (length (heap k)))
       (set_global "image_ids" (VRef (length (heap k)))
          (push_obj (OList (VJson <$> ids)) k))).
Proof.
  unfold bound. intros Hgeo Hfeatures Hids.
  assert (fst (traverse (fun feature => subscript feature (KStr "id")) (VJson <$> fs) k)
          = Ok (VJson <$> ids)) as Htraverse.
  { apply traverse_subscript_ok, Forall2_fmap.
    eapply Forall2_impl; [done|]. intros f i Hf. simpl. by rewrite Hf. }
  apply wp_eq. unfold cell5_image_ids.
  wp_step. wp_step. rewrite Hgeo.
  wp_step. wp_step. simpl. rewrite Hfeatures.
  wp_step. wp_step. simpl.
  wp_step. wp_step. rewrite Htraverse.
  wp_run. done.
Qed.

Section FirstImage.

Variable service : list Request -> Request -> result Response.
Variable py_str : val -> string.

Lemma first_of_no_image k l :
  bound k "image_ids" (VRef l) ->
  heap k !! l = Some (OList []) ->
  cell10_assets service py_str k = (Raise IndexError, k).
Proof.
  unfold bound. intros Hids Hl.
  apply wp_eq. unfold cell10_assets. wp_run. done.
Qed.

Lemma first_of_some_image k l x xs :
  bound k "image_ids" (VRef l) ->
  heap k !! l = Some (OList (x :: xs)) ->
  bound (snd (cell10_assets service py_str k)) "id0" x.
Proof.
  unfold bound. intros Hids Hl.
  change (wp (cell10_assets service py_str)
            (fun _ k' => dict_get (globals k') "id0" = Some x) k).
  unfold cell10_assets. wp_run; done.
Qed.

(** C9: when the features of the search response are the empty list, In [5]
    binds [image_ids] to an empty list and In [10] stops at [image_ids[0]]
    with an [IndexError], uncaught, before it binds or sends anything; with
    at least one feature, [id0] is the id of the first. *)
Theorem first_image_needs_a_feature k g :
  bound k "geojson" (VJson g) ->
  let k5 := snd (cell5_image_ids k) in
  (json_getitem g (KStr "features") = Ok (JArr []) ->
   fst (cell5_image_ids k) = Ok tt /\
   (exists l, bound k5 "image_ids" (VRef l) /\ heap k5 !! l = Some (OList [])) /\
   cell10_assets service py_str k5 = (Raise IndexError, k5)) /\
  (forall f fs i ids,
     json_getitem g (KStr "features") = Ok (JArr (f :: fs)) ->
     Forall2 (fun f' i' => json_getitem f' (KStr "id") = Ok i') (f :: fs) (i :: ids) ->
     bound (snd (cell10_assets service py_str k5)) "id0" (VJson i)).
Proof.
  intros Hgeo k5. split.
  - intros Hfeatures.
    pose proof (image_ids_cell_run k g [] [] Hgeo Hfeatures ltac:(constructor)) as Hrun.
    assert (bound k5 "image_ids" (VRef (length (heap k))) /\
            heap k5 !! length (heap k) = Some (OList [])) as [Hb Hl].
    { unfold k5. rewrite Hrun. split; [done|]. simpl. by apply list_lookup_middle. }
    split_and!.
    + by rewrite Hrun.
    + eauto.
    + by eapply first_of_no_image.
  - intros f fs i ids Hfeatures Hids.
    pose proof (image_ids_cell_run k g _ _ Hgeo Hfeatures Hids) as Hrun.
    eapply first_of_some_image.
    + unfold k5. by rewrite Hrun.
    + unfold k5. rewrite Hrun. simpl. by apply list_lookup_middle.
Qed.

End FirstImage.

(** ** In [2] to In [4]: what the displays build *)

Lemma encode_list_S n h l xs js :
  h !! l = Some (OList xs) ->
  Forall2 (fun x j => encode n h x = Some j) xs js ->
  encode (S n) h (VRef l) = Some (JArr js).
Proof.
  intros Hl Hxs. rewrite encode_ref_S, Hl.
  apply mapM_Some in Hxs. by rewrite Hxs.
Qed.

Lemma encode_dict_S n h l kvs kjs :
  h !! l = Some (ODict kvs) ->
  Forall2 (fun kv kj => fst kv = fst kj /\ encode n h (snd kv) = Some (snd kj)) kvs kjs ->
  encode (S n) h (VRef l) = Some (JObj kjs).
Proof.
  intros Hl Hkvs. rewrite encode_ref_S, Hl.
  assert (mapM (fun kv => pair (fst kv) <$> encode n h (snd kv)) kvs = Some kjs) as ->;
    [|done].
  apply mapM_Some. eapply Forall2_impl; [done|].
  intros [k v] [k' j] [Hk Hv]; simpl in *. subst k'. by rewrite Hv.
Qed.

Lemma grows_refl xs k : grows xs k k.
Proof. by split. Qed.

Lemma grows_push_obj xs k k' o : grows xs k k' -> grows xs k (push_obj o k').
Proof. intros (Hh & Hg). split; [|done]. simpl. by apply prefix_app_r. Qed.

Lemma grows_set_global xs k k' x v :
  x ∈ xs -> grows xs k k' -> grows xs k (set_global x v k').
Proof.
  intros Hx (Hh & Hg). split; [done|].
  intros y Hy. simpl. destruct (String.eqb_spec x y) as [->|]; [done|]. by apply Hg.
Qed.

Lemma grows_log_request xs k k' r : grows xs k k' -> grows xs k (log_request r k').
Proof. by intros (Hh & Hg). Qed.

Lemma grows_emit xs k k' v : grows xs k k' -> grows xs k (emit v k').
Proof. by intros (Hh & Hg). Qed.

Lemma grows_trans xs ys k k' k'' :
  grows xs k k' -> grows ys k' k'' -> grows (xs ++ ys) k k''.
Proof.
  intros (Hh & Hg) (Hh' & Hg'). split; [by etrans|].
  intros x Hx. rewrite not_elem_of_app in Hx. destruct Hx.
  rewrite Hg' by done. by apply Hg.
Qed.

Lemma grows_lookup xs k k' l o :
  grows xs k k' -> heap k !! l = Some o -> heap k' !! l = Some o.
Proof. intros (Hh & _) Hl. by eapply prefix_lookup_Some. Qed.

Lemma grows_bound xs k k' x v :
  grows xs k k' -> x ∉ xs -> bound k x v -> bound k' x v.
Proof. unfold bound. intros (_ & Hg) Hx Hv. by rewrite Hg. Qed.

Lemma extends_refl xs k : extends xs k k.
Proof. split; [apply grows_refl|done]. Qed.

Lemma extends_push_obj xs k k' o : extends xs k k' -> extends xs k (push_obj o k').
Proof. intros (Hg & He & Hs & Ho). split; [by apply grows_push_obj|done]. Qed.

Lemma extends_set_global xs k k' x v :
  x ∈ xs -> extends xs k k' -> extends xs k (set_global x v k').
Proof.
  intros Hx (Hg & He & Hs & Ho). split; [by apply grows_set_global|done].
Qed.

Lemma extends_trans xs ys k k' k'' :
  extends xs k k' -> extends ys k' k'' -> extends (xs ++ ys) k k''.
Proof.
  intros (Hg & He & Hs & Ho) (Hg' & He' & Hs' & Ho').
  split; [by eapply grows_trans|]. split_and!; congruence.
Qed.

Lemma extends_lookup xs k k' l o :
  extends xs k k' -> heap k !! l = Some o -> heap k' !! l = Some o.
Proof. intros (Hg & _). by eapply grows_lookup. Qed.

Lemma extends_bound xs k k' x v :
  extends xs k k' -> x ∉ xs -> bound k x v -> bound k' x v.
Proof. intros (Hg & _). by eapply grows_bound. Qed.

Lemma extends_encode xs k k' n v j :
  extends xs k k' -> encode n (heap k) v = Some j -> encode n (heap k') v = Some j.
Proof. intros ((Hh & _) & _). by apply encode_extends. Qed.

Lemma wp_ok {A : Type} (m : M A) (a : A) (P : kernel -> Prop) k :
  wp m (fun r k' => r = Ok a /\ P k') k -> exists k', m k = (Ok a, k') /\ P k'.
Proof. unfold wp. destruct (m k) as [r k']. simpl. intros [-> HP]. eauto. Qed.

Lemma bind_ok {A B : Type} (m : M A) (f : A -> M B) k a k' :
  m k = (Ok a, k') -> bind m f k = f a k'.
Proof. unfold bind. by intros ->. Qed.

Ltac heap_lookup :=
  simpl; repeat first [ by apply list_lookup_middle | apply lookup_app_l_Some ].

Ltac extends_solve :=
  repeat first
    [ apply extends_refl
    | apply extends_push_obj
    | apply extends_set_global; [set_solver|] ].

Lemma geometry_filter_spec k g :
  bound k "geojson_geometry" g ->
  exists k',
    assign_geometry_filter k = (Ok tt, k') /\
    extends ["geometry_filter"] k k' /\
    exists l,
      bound k' "geometry_filter" (VRef l) /\
      heap k' !! l = Some (ODict [("type", str "GeometryFilter");
                                  ("field_name", str "geometry");
                                  ("config", g)]).
Proof.
  unfold bound. intros Hg. apply wp_ok.
  unfold assign_geometry_filter. wp_run.
  split_and!; [done|extends_solve|]. eexists. split; [done|heap_lookup].
Qed.

Lemma date_range_filter_spec k :
  exists k',
    assign_date_range_filter k = (Ok tt, k') /\
    extends ["date_range_filter"] k k' /\
    exists l c,
      bound k' "date_range_filter" (VRef l) /\
      heap k' !! l = Some (ODict [("type", str "DateRangeFilter");
                                  ("field_name", str "acquired");
                                  ("config", VRef c)]) /\
      heap k' !! c = Some (ODict [("gte", str "2016-08-31T00:00:00.000Z");
                                  ("lte", str "2016-09-01T00:00:00.000Z")]).
Proof.
  apply wp_ok. unfold assign_date_range_filter. wp_run.
  split_and!; [done|extends_solve|]. eexists _, _. split_and!; [done|heap_lookup..].
Qed.

Lemma cloud_cover_filter_spec k :
  exists k',
    assign_cloud_cover_filter k = (Ok tt, k') /\
    extends ["cloud_cover_filter"] k k' /\
    exists l c,
      bound k' "cloud_cover_filter" (VRef l) /\
      heap k' !! l = Some (ODict [("type", str "RangeFilter");
                                  ("field_name", str "cloud_cover");
                                  ("config", VRef c)]) /\
      heap k' !! c = Some (ODict [("lte", flt 0.5)]).
Proof.
  apply wp_ok. unfold assign_cloud_cover_filter. wp_run.
  split_and!; [done|extends_solve|]. eexists _, _. split_and!; [done|heap_lookup..].
Qed.

Lemma combined_filter_spec k gf df cf :
  bound k "geometry_filter" gf ->
  bound k "date_range_filter" df ->
  bound k "cloud_cover_filter" cf ->
  exists k',
    assign_combined_filter k = (Ok tt, k') /\
    extends ["combined_filter"] k k' /\
    exists l c,
      bound k' "combined_filter" (VRef l) /\
      heap k' !! l = Some (ODict [("type", str "AndFilter"); ("config", VRef c)]) /\
      heap k' !! c = Some (OList [gf; df; cf]).
Proof.
  unfold bound. intros Hgf Hdf Hcf. apply wp_ok.
  unfold assign_combined_filter. wp_run.
  split_and!; [done|extends_solve|]. eexists _, _. split_and!; [done|heap_lookup..].
Qed.

Ltac not_in_names := rewrite !not_elem_of_cons; split_and!; (done || apply not_elem_of_nil).

Lemma filters_cell_spec k g :
  bound k "geojson_geometry" g ->
  exists k',
    cell3_filters k = (Ok tt, k') /\
    extends ["geometry_filter"; "date_range_filter"; "cloud_cover_filter";
             "combined_filter"] k k' /\
    filters_built g k'.
Proof.
  intros Hg.
  destruct (geometry_filter_spec k g Hg) as (k1 & Hrun1 & Hext1 & gf & Hgf & Hgfo).
  destruct (date_range_filter_spec k1) as (k2 & Hrun2 & Hext2 & df & dc & Hdf & Hdfo & Hdco).
  destruct (cloud_cover_filter_spec k2) as (k3 & Hrun3 & Hext3 & cf & cc & Hcf & Hcfo & Hcco).
  assert (bound k3 "geometry_filter" (VRef gf)) as Hgf3.
  { eapply extends_bound; [done|not_in_names|].
    eapply extends_bound; [done|not_in_names|done]. }
  assert (bound k3 "date_range_filter" (VRef df)) as Hdf3.
  { eapply extends_bound; [done|not_in_names|done]. }
  destruct (combined_filter_spec k3 _ _ _ Hgf3 Hdf3 Hcf)
    as (k4 & Hrun4 & Hext4 & comb & cfg & Hcomb & Hcombo & Hcfgo).
  exists k4. split_and!.
  - unfold cell3_filters.
    by rewrite (bind_ok _ _ _ _ _ Hrun1), (bind_ok _ _ _ _ _ Hrun2),
      (bind_ok _ _ _ _ _ Hrun3).
  - apply (extends_trans ["geometry_filter"] _ k k1 k4); [done|].
    apply (extends_trans ["date_range_filter"] _ k1 k2 k4); [done|].
    by apply (extends_trans ["cloud_cover_filter"] _ k2 k3 k4).
  - exists gf, df, dc, cf, cc, comb, cfg. split_and!; try done.
    + by eapply extends_bound; [done|not_in_names|].
    + do 3 (eapply extends_lookup; [done|]). done.
    + by eapply extends_bound; [done|not_in_names|].
    + do 2 (eapply extends_lookup; [done|]). done.
    + do 2 (eapply extends_lookup; [done|]). done.
    + by eapply extends_bound; [done|not_in_names|].
    + by eapply extends_lookup.
    + by eapply extends_lookup.
Qed.

Ltac encode_leaf := simpl; split; [reflexivity | apply encode_json].

(** The children and the conjunction encode to the trees of their displays. *)
Lemma filters_built_encode g k n G :
  filters_built g k ->
  encode n (heap k) g = Some G ->
  exists gf df cf comb,
    bound k "geometry_filter" gf /\
    bound k "date_range_filter" df /\
    bound k "cloud_cover_filter" cf /\
    bound k "combined_filter" comb /\
    encode (2 + n) (heap k) gf = Some (geometry_filter_json G) /\
    encode (2 + n) (heap k) df = Some date_range_filter_json /\
    encode (2 + n) (heap k) cf = Some cloud_cover_filter_json /\
    encode (4 + n) (heap k) comb =
      Some (and_filter_json [geometry_filter_json G; date_range_filter_json;
                             cloud_cover_filter_json]).
Proof.
  intros (gf & df & dc & cf & cc & comb & cfg &
          (Hgf & Hgfo) & (Hdf & Hdfo & Hdco) & (Hcf & Hcfo & Hcco) &
          (Hcomb & Hcombo & Hcfgo)) HG.
  assert (encode (2 + n) (heap k) (VRef gf) = Some (geometry_filter_json G)) as Egf.
  { eapply encode_dict_S; [done|]. repeat constructor; try apply encode_json.
    simpl. eapply encode_extends; [|done|done]. lia. }
  assert (encode (2 + n) (heap k) (VRef df) = Some date_range_filter_json) as Edf.
  { eapply encode_dict_S; [done|]. repeat constructor; try apply encode_json.
    simpl. eapply encode_dict_S; [done|]. repeat constructor; apply encode_json. }
  assert (encode (2 + n) (heap k) (VRef cf) = Some cloud_cover_filter_json) as Ecf.
  { eapply encode_dict_S; [done|]. repeat constructor; try apply encode_json.
    simpl. eapply encode_dict_S; [done|]. repeat constructor; apply encode_json. }
  exists (VRef gf), (VRef df), (VRef cf), (VRef comb). split_and!; try done.
  eapply encode_dict_S; [done|]. repeat constructor; try apply encode_json.
  simpl. eapply encode_list_S; [done|]. by repeat constructor.
Qed.

Lemma wp_mono {A : Type} (m : M A) (Q Q' : result A -> kernel -> Prop) k :
  wp m Q' k -> (forall r k', Q' r k' -> Q r k') -> wp m Q k.
Proof. unfold wp. auto. Qed.

Lemma api_key_cell_run k :
  cell1_api_key k = (Ok tt, set_global "API_KEY" (str (api_key_of (environ k))) k).
Proof.
  apply wp_eq. unfold cell1_api_key. wp_run; (split; [done|]);
    unfold api_key_of; by rewrite Heqb.
Qed.

Lemma aoi_cell_spec k :
  exists k',
    cell2_aoi k = (Ok tt, k') /\
    extends ["geojson_geometry"] k k' /\
    exists l,
      bound k' "geojson_geometry" (VRef l) /\
      encode 4 (heap k') (VRef l) = Some geojson_geometry_json.
Proof.
  apply wp_ok. unfold cell2_aoi. wp_run.
  split_and!; [done|extends_solve|]. eexists. split; [done|].
  eapply encode_dict_S; [heap_lookup|]. repeat constructor; try apply encode_json.
  simpl. eapply encode_list_S; [heap_lookup|]. repeat constructor.
  eapply encode_list_S; [heap_lookup|].
  repeat constructor;
    (eapply encode_list_S; [heap_lookup|]; repeat constructor; apply encode_json).
Qed.

Lemma search_request_spec k it cf :
  bound k "item_type" it ->
  bound k "combined_filter" cf ->
  exists k',
    assign_search_request k = (Ok tt, k') /\
    extends ["search_request"] k k' /\
    exists sr its,
      bound k' "search_request" (VRef sr) /\
      heap k' !! sr = Some (ODict [("item_types", VRef its); ("filter", cf)]) /\
      heap k' !! its = Some (OList [it]).
Proof.
  unfold bound. intros Hit Hcf. apply wp_ok.
  unfold assign_search_request. wp_run.
  split_and!; [done|extends_solve|]. eexists _, _. split_and!; [done|heap_lookup..].
Qed.

Ltac grows_solve :=
  repeat first
    [ apply grows_refl
    | apply grows_push_obj
    | apply grows_log_request
    | apply grows_emit
    | apply grows_set_global; [set_solver|] ].

Section Search.

Variable service : list Request -> Request -> result Response.

(** In [4] builds objects and binds its own four names; it touches no
    object and no name that was there. *)
Lemma search_cell_frame k :
  grows ["item_type"; "search_request"; "search_result"; "geojson"] k
    (snd (cell4_search service k)).
Proof.
  change (wp (cell4_search service)
            (fun _ k' =>
               grows ["item_type"; "search_request"; "search_result"; "geojson"] k k') k).
  unfold cell4_search, assign_item_type, assign_search_request,
    assign_search_result, assign_geojson, print_first_result.
  wp_run; grows_solve.
Qed.

Lemma search_request_stays k v :
  bound k "search_request" v ->
  wp (assign_search_result service ;; assign_geojson ;; print_first_result)
    (fun _ k' => bound k' "search_request" v /\ heap k `prefix_of` heap k') k.
Proof.
  unfold bound. intros Hv.
  unfold assign_search_result, assign_geojson, print_first_result.
  wp_run; (split; [done|by simpl]).
Qed.

Lemma search_is_sent k key v body :
  bound k "API_KEY" key ->
  bound k "search_request" v ->
  encode recursion_limit (heap k) v = Some body ->
  wp (assign_search_result service ;; assign_geojson ;; print_first_result)
    (fun _ k' =>
       sent k' = sent k ++
         [mkRequest POST "https://api.planet.com/data/v1/quick-search"
            (HTTPBasicAuth key (str "")) (Some body)]) k.
Proof.
  unfold bound. intros Hkey Hv Hbody.
  unfold assign_search_result, assign_geojson, print_first_result.
  wp_run; done.
Qed.

Lemma search_cell_sent k key cf n F :
  bound k "API_KEY" key ->
  bound k "combined_filter" cf ->
  encode n (heap k) cf = Some F ->
  n + 2 <= recursion_limit ->
  sent (snd (cell4_search service k)) =
    sent k ++
      [mkRequest POST "https://api.planet.com/data/v1/quick-search"
         (HTTPBasicAuth key (str "")) (Some (search_request_json F))].
Proof.
  intros Hkey Hcf HF Hn.
  set (k0 := set_global "item_type" (str "PSScene") k).
  destruct (search_request_spec k0 (str "PSScene") cf) as
    (k1 & Hrun & Hext & sr & its & Hsr & Hsro & Hitso); [done|done|].
  assert (encode recursion_limit (heap k1) (VRef sr) = Some (search_request_json F)) as Hbody.
  { apply (encode_extends (S (S n)) _ (heap k1) (heap k1)); [lia|done|].
    eapply encode_dict_S; [done|]. repeat constructor; simpl.
    - eapply encode_list_S; [done|]. repeat constructor. apply encode_json.
    - eapply encode_extends; [|by apply Hext|done]. lia. }
  assert (bound k1 "API_KEY" key) as Hkey1
    by (eapply extends_bound; [done|not_in_names|done]).
  pose proof (search_is_sent k1 key _ _ Hkey1 Hsr Hbody) as Hsent.
  unfold cell4_search.
  change (assign_item_type k) with (Ok tt, k0) in *.
  unfold wp in Hsent.
  unfold bind at 1. unfold assign_item_type, assign. fold k0.
  rewrite (bind_ok _ _ _ _ _ Hrun), Hsent.
  destruct Hext as (_ & _ & -> & _). done.
Qed.

(** In [4] up to its request: the item type and the search request are
    built, and the request body is ready. *)
Lemma search_cell_start k key cf n F :
  bound k "API_KEY" key ->
  bound k "combined_filter" cf ->
  encode n (heap k) cf = Some F ->
  n + 2 <= recursion_limit ->
  exists k1 sr,
    cell4_search service k =
      (assign_search_result service ;; assign_geojson ;; print_first_result) k1 /\
    grows ["item_type"; "search_request"] k k1 /\
    environ k1 = environ k /\ sent k1 = sent k /\ stdout k1 = stdout k /\
    bound k1 "API_KEY" key /\
    bound k1 "item_type" (str "PSScene") /\
    bound k1 "search_request" (VRef sr) /\
    encode recursion_limit (heap k1) (VRef sr) = Some (search_request_json F).
Proof.
  intros Hkey Hcf HF Hn.
  set (k0 := set_global "item_type" (str "PSScene") k).
  destruct (search_request_spec k0 (str "PSScene") cf) as
    (k1 & Hrun & Hext & sr & its & Hsr & Hsro & Hitso); [done|done|].
  exists k1, sr. destruct Hext as (Hgrows & He & Hs & Ho). split_and!; try done.
  - unfold cell4_search. unfold bind at 1. unfold assign_item_type, assign. fold k0.
    by rewrite (bind_ok _ _ _ _ _ Hrun).
  - apply (grows_trans ["item_type"] ["search_request"] k k0 k1); [|done].
    apply grows_set_global; [set_solver|apply grows_refl].
  - eapply grows_bound; [done|not_in_names|done].
  - eapply grows_bound; [done|not_in_names|done].
  - apply (encode_extends (S (S n)) _ (heap k1) (heap k1)); [lia|done|].
    eapply encode_dict_S; [done|]. repeat constructor; simpl.
    + eapply encode_list_S; [done|]. repeat constructor. apply encode_json.
    + eapply encode_extends; [|by apply Hgrows|done]. lia.
Qed.

Lemma search_rest_binds_geojson k1 key sr body r j :
  bound k1 "API_KEY" key ->
  bound k1 "search_request" (VRef sr) ->
  encode recursion_limit (heap k1) (VRef sr) = Some body ->
  service (sent k1)
    (mkRequest POST "https://api.planet.com/data/v1/quick-search"
       (HTTPBasicAuth key (str "")) (Some body)) = Ok r ->
  resp_json r = Some j ->
  wp (assign_search_result service ;; assign_geojson ;; print_first_result)
    (fun _ k' => bound k' "geojson" (VJson j)) k1.
Proof.
  unfold bound. intros Hkey Hsr Hbody Hsvc Hjson.
  unfold assign_search_result, assign_geojson, print_first_result.
  wp_run; done.
Qed.

End Search.

Section SearchClaims.

Variable service : list Request -> Request -> result Response.

Lemma search_from_fresh_kernel env :
  sent (snd (run_cells [cell1_api_key; cell2_aoi; cell3_filters; cell4_search service]
               (fresh_kernel env))) =
    [mkRequest POST "https://api.planet.com/data/v1/quick-search"
       (HTTPBasicAuth (str (api_key_of env)) (str ""))
       (Some (search_request_json combined_filter_json))].
Proof.
  rewrite run_cells_state.
  change (foldl _ _ _) with
    (snd (cell4_search service
            (snd (cell3_filters (snd (cell2_aoi (snd (cell1_api_key (fresh_kernel env))))))))).
  rewrite api_key_cell_run. cbn [snd].
  set (k1 := set_global "API_KEY" _ _).
  destruct (aoi_cell_spec k1) as (k2 & -> & Hext2 & l & Hg & HG). cbn [snd].
  destruct (filters_cell_spec k2 _ Hg) as (k3 & -> & Hext3 & Hbuilt). cbn [snd].
  apply (extends_encode _ _ _ _ _ _ Hext3) in HG.
  destruct (filters_built_encode _ _ _ _ Hbuilt HG)
    as (gf & df & cf & comb & _ & _ & _ & Hcomb & _ & _ & _ & Ecomb).
  assert (bound k3 "API_KEY" (str (api_key_of env))) as Hkey.
  { eapply extends_bound; [done|not_in_names|].
    eapply extends_bound; [done|not_in_names|]. done. }
  rewrite (search_cell_sent service k3 _ _ _ _ Hkey Hcomb Ecomb)
    by (unfold recursion_limit; lia).
  destruct Hext3 as (_ & _ & -> & _), Hext2 as (_ & _ & -> & _). done.
Qed.

(** C7: the search is a POST whose body holds the list of the one item type
    "PSScene" under "item_types" and the encoded combined filter under
    "filter", and nothing else; [geojson] is bound to the decoded response
    to that very POST, whether or not the print of In [4] succeeds
    afterwards; and the image ids In [5] extracts after In [4] are the ids
    of the features of that response, one for each and in the order of the
    response. *)
Theorem search_is_posted_and_read_in_order :
  (forall k key cf n F,
     bound k "API_KEY" key ->
     bound k "combined_filter" cf ->
     encode n (heap k) cf = Some F ->
     n + 2 <= recursion_limit ->
     sent (snd (cell4_search service k)) =
       sent k ++
         [mkRequest POST "https://api.planet.com/data/v1/quick-search"
            (HTTPBasicAuth key (str ""))
            (Some (JObj [("item_types", JArr [JStr "PSScene"]); ("filter", F)]))]) /\
  (forall env,
     sent (snd (run_cells
                  [cell1_api_key; cell2_aoi; cell3_filters; cell4_search service]
                  (fresh_kernel env))) =
       [mkRequest POST "https://api.planet.com/data/v1/quick-search"
          (HTTPBasicAuth (str (api_key_of env)) (str ""))
          (Some (JObj [("item_types", JArr [JStr "PSScene"]);
                       ("filter", combined_filter_json)]))]) /\
  (forall k g fs ids,
     bound k "geojson" (VJson g) ->
     json_getitem g (KStr "features") = Ok (JArr fs) ->
     Forall2 (fun f i => json_getitem f (KStr "id") = Ok i) fs ids ->
     let k' := snd (cell5_image_ids k) in
     exists l,
       bound k' "image_ids" (VRef l) /\
       heap k' !! l = Some (OList (VJson <$> ids)) /\
       stdout k' = stdout k ++ [VRef l]) /\
  (forall k key cf n F r g fs ids,
     bound k "API_KEY" key ->
     bound k "combined_filter" cf ->
     encode n (heap k) cf = Some F ->
     n + 2 <= recursion_limit ->
     service (sent k)
       (mkRequest POST "https://api.planet.com/data/v1/quick-search"
          (HTTPBasicAuth key (str ""))
          (Some (JObj [("item_types", JArr [JStr "PSScene"]); ("filter", F)]))) = Ok r ->
     resp_json r = Some g ->
     json_getitem g (KStr "features") = Ok (JArr fs) ->
     Forall2 (fun f i => json_getitem f (KStr "id") = Ok i) fs ids ->
     let k4 := snd (cell4_search service k) in
     let k5 := snd (cell5_image_ids k4) in
     bound k4 "geojson" (VJson g) /\
     fst (cell5_image_ids k4) = Ok tt /\
     exists l,
       bound k5 "image_ids" (VRef l) /\
       heap k5 !! l = Some (OList (VJson <$> ids)) /\
       stdout k5 = stdout k4 ++ [VRef l]).
Proof.
  split_and!.
  - apply search_cell_sent.
  - apply search_from_fresh_kernel.
  - intros k g fs ids Hgeo Hfeatures Hids k'. unfold k'.
    rewrite (image_ids_cell_run k g fs ids Hgeo Hfeatures Hids).
    exists (length (heap k)). split_and!; [done| |done].
    simpl. by apply list_lookup_middle.
  - intros k key cf n F r g fs ids Hkey Hcf HF Hn Hsvc Hjson Hfeatures Hids k4 k5.
    assert (bound k4 "geojson" (VJson g)) as Hgeo.
    { unfold k4.
      destruct (search_cell_start service k key cf n F Hkey Hcf HF Hn)
        as (k1 & sr & -> & _ & _ & Hs & _ & Hkey1 & _ & Hsr & Hbody).
      rewrite <- Hs in Hsvc.
      by apply (search_rest_binds_geojson service k1 key sr (search_request_json F) r g). }
    split; [done|]. unfold k5.
    rewrite (image_ids_cell_run k4 g fs ids Hgeo Hfeatures Hids).
    split; [done|].
    exists (length (heap k4)). split_and!; [done| |done].
    simpl. by apply list_lookup_middle.
Qed.

End SearchClaims.

Lemma search_is_posted_and_read_in_order_witness :
  bound (snd (cell4_search data_api_service kernel_with_filters)) "geojson"
    (VJson (JObj [("_links", JObj []);
                  ("features", JArr [scene "20160831_212705_0c43";
                                     scene "20160831_212703_0c43"]);
                  ("type", JStr "FeatureCollection")])) /\
  fst (cell5_image_ids (snd (cell4_search data_api_service kernel_with_filters))) = Ok tt /\
  exists l,
    bound (snd (cell5_image_ids (snd (cell4_search data_api_service kernel_with_filters))))
      "image_ids" (VRef l) /\
    heap (snd (cell5_image_ids (snd (cell4_search data_api_service kernel_with_filters))))
      !! l = Some (OList [str "20160831_212705_0c43"; str "20160831_212703_0c43"]) /\
    stdout (snd (cell5_image_ids (snd (cell4_search data_api_service kernel_with_filters)))) =
      stdout (snd (cell4_search data_api_service kernel_with_filters)) ++ [VRef l].
Proof.
  apply (proj2 (proj2 (proj2 (search_is_posted_and_read_in_order data_api_service)))
           kernel_with_filters (str (api_key_of ∅)) (VRef 14) 8 combined_filter_json
           (mkResponse
              (Some (JObj [("_links", JObj []);
                           ("features", JArr [scene "20160831_212705_0c43";
                                              scene "20160831_212703_0c43"]);
                           ("type", JStr "FeatureCollection")])))
           (JObj [("_links", JObj []);
                  ("features", JArr [scene "20160831_212705_0c43";
                                     scene "20160831_212703_0c43"]);
                  ("type", JStr "FeatureCollection")])
           [scene "20160831_212705_0c43"; scene "20160831_212703_0c43"]
           [JStr "20160831_212705_0c43"; JStr "20160831_212703_0c43"]).
  - vm_compute. reflexivity.
  - vm_compute. reflexivity.
  - vm_compute. reflexivity.
  - unfold recursion_limit. lia.
  - vm_compute. reflexivity.
  - reflexivity.
  - reflexivity.
  - repeat constructor.
Defined.

(** ** Authentication: the key and the requests that carry it *)

Section AuthenticationClaim.

Variable service : list Request -> Request -> result Response.
Variable py_str : val -> string.
Variable env : gmap string string.

(** C6: the key is the value of PL_API_KEY when that is set and not empty,
    and the literal of In [1] otherwise: In [1] binds [API_KEY] to it in
    every kernel with this environment.  Whatever cells of the notebook are
    run, in whatever order and how often, from a fresh kernel, every request
    sent carries basic auth with that key as user name and the empty string
    as password; and requests are sent: after In [1] to In [4] the one
    request in the log is the search, carrying the key and the empty
    password. *)
Theorem every_request_carries_the_api_key cs :
  Forall (fun c => c ∈ notebook service py_str) cs ->
  let key :=
    match env !! "PL_API_KEY" with
    | Some (String a s) => String a s
    | _ => "PLAKcaa4ce6cd0464a058d71353bf2bca50b"
    end in
  (forall k,
     environ k = env ->
     cell1_api_key k = (Ok tt, set_global "API_KEY" (str key) k)) /\
  Forall (fun r => req_auth r = HTTPBasicAuth (str key) (str ""))
    (sent (snd (run_cells cs (fresh_kernel env)))) /\
  sent (snd (run_cells
               [cell1_api_key; cell2_aoi; cell3_filters; cell4_search service]
               (fresh_kernel env))) =
    [mkRequest POST "https://api.planet.com/data/v1/quick-search"
       (HTTPBasicAuth (str key) (str ""))
       (Some (search_request_json combined_filter_json))].
Proof.
  intros Hcs key.
  assert (key = api_key_of env) as ->.
  { unfold key, api_key_of. by destruct (env !! "PL_API_KEY") as [[|a s]|]. }
  split_and!.
  - intros k <-. apply api_key_cell_run.
  - apply (keyed_run service py_str env cs (fresh_kernel env)) in Hcs as (_ & _ & Hsent);
      [done|].
    split_and!; [done|by left|constructor].
  - apply search_from_fresh_kernel.
Qed.

End AuthenticationClaim.

Lemma every_request_carries_the_api_key_witness :
  cell1_api_key (fresh_kernel {["PL_API_KEY" := "secret"]}) =
    (Ok tt, set_global "API_KEY" (str "secret") (fresh_kernel {["PL_API_KEY" := "secret"]})) /\
  Forall (fun r => req_auth r = HTTPBasicAuth (str "secret") (str ""))
    (sent (snd (run_cells (notebook recorded_service plain_str)
                  (fresh_kernel {["PL_API_KEY" := "secret"]})))) /\
  sent (snd (run_cells
               [cell1_api_key; cell2_aoi; cell3_filters; cell4_search recorded_service]
               (fresh_kernel {["PL_API_KEY" := "secret"]}))) =
    [mkRequest POST "https://api.planet.com/data/v1/quick-search"
       (HTTPBasicAuth (str "secret") (str ""))
       (Some (search_request_json combined_filter_json))].
Proof.
  assert (({["PL_API_KEY" := "secret"]} : gmap string string) !! "PL_API_KEY"
          = Some "secret") as E by (vm_compute; reflexivity).
  pose proof (every_request_carries_the_api_key recorded_service plain_str
                {["PL_API_KEY" := "secret"]} (notebook recorded_service plain_str)) as W.
  cbv zeta in W. rewrite E in W.
  destruct W as (Hkey & Hall & Hsearch); [by apply Forall_forall|].
  split_and!; [by apply Hkey|exact Hall|exact Hsearch].
Defined.

(** ** In [3] and In [4]: the filters *)

Lemma filters_built_grows xs g k k' :
  grows xs k k' ->
  "geometry_filter" ∉ xs -> "date_range_filter" ∉ xs ->
  "cloud_cover_filter" ∉ xs -> "combined_filter" ∉ xs ->
  filters_built g k -> filters_built g k'.
Proof.
  intros Hg H1 H2 H3 H4
    (gf & df & dc & cf & cc & comb & cfg &
     (Hgf & Hgfo) & (Hdf & Hdfo & Hdco) & (Hcf & Hcfo & Hcco) &
     (Hcomb & Hcombo & Hcfgo)).
  exists gf, df, dc, cf, cc, comb, cfg.
  split_and!; first [ by eapply grows_bound | by eapply grows_lookup ].
Qed.

Lemma conjunction_of_any_children k gf df cf GF DF CF :
  bound k "geometry_filter" gf ->
  bound k "date_range_filter" df ->
  bound k "cloud_cover_filter" cf ->
  encodes (heap k) gf GF ->
  encodes (heap k) df DF ->
  encodes (heap k) cf CF ->
  exists k' comb,
    assign_combined_filter k = (Ok tt, k') /\
    bound k' "combined_filter" comb /\
    encodes (heap k') comb (and_filter_json [GF; DF; CF]).
Proof.
  intros Hgf Hdf Hcf HGF HDF HCF.
  destruct (combined_filter_spec k gf df cf) as
    (k' & Hrun & ((Hh & _) & _) & l & c & Hl & Hlo & Hco); [done..|].
  exists k', (VRef l). split_and!; [done..|].
  eapply encodes_dict; [done|]. repeat constructor; simpl; try apply encodes_json.
  eapply encodes_list; [done|]. repeat constructor; by eapply encodes_extends.
Qed.

Lemma conjunction_of_the_filters k g G :
  bound k "geojson_geometry" g ->
  encodes (heap k) g G ->
  exists k' comb,
    cell3_filters k = (Ok tt, k') /\
    bound k' "combined_filter" comb /\
    encodes (heap k') comb
      (and_filter_json [geometry_filter_json G; date_range_filter_json;
                        cloud_cover_filter_json]).
Proof.
  intros Hg [n HG].
  destruct (filters_cell_spec k g Hg) as (k' & Hrun & Hext & Hbuilt).
  apply (extends_encode _ _ _ _ _ _ Hext) in HG.
  destruct (filters_built_encode _ _ _ _ Hbuilt HG)
    as (gf & df & cf & comb & _ & _ & _ & Hcomb & _ & _ & _ & Ecomb).
  exists k', comb. split_and!; [done..|]. by eexists.
Qed.

(** C4: the conjunction encodes to the object tagged "AndFilter" whose
    config is the list of what its children encode to, in the order
    geometry, date range, cloud cover.  This holds of the statement that
    builds the conjunction whatever the three children are, and of In [3]
    as a whole, where the children are tagged GeometryFilter,
    DateRangeFilter and RangeFilter. *)
Theorem conjunction_keeps_children k :
  (forall gf df cf GF DF CF,
     bound k "geometry_filter" gf ->
     bound k "date_range_filter" df ->
     bound k "cloud_cover_filter" cf ->
     encodes (heap k) gf GF ->
     encodes (heap k) df DF ->
     encodes (heap k) cf CF ->
     exists k' comb,
       assign_combined_filter k = (Ok tt, k') /\
       bound k' "combined_filter" comb /\
       encodes (heap k') comb
         (JObj [("type", JStr "AndFilter"); ("config", JArr [GF; DF; CF])])) /\
  (forall g G,
     bound k "geojson_geometry" g ->
     encodes (heap k) g G ->
     exists k' comb,
       cell3_filters k = (Ok tt, k') /\
       bound k' "combined_filter" comb /\
       encodes (heap k') comb
         (JObj [("type", JStr "AndFilter");
                ("config", JArr [geometry_filter_json G; date_range_filter_json;
                                 cloud_cover_filter_json])]) /\
       (fun c => json_getitem c (KStr "type")) <$>
         [geometry_filter_json G; date_range_filter_json; cloud_cover_filter_json]
       = [Ok (JStr "GeometryFilter"); Ok (JStr "DateRangeFilter"); Ok (JStr "RangeFilter")]).
Proof.
  split.
  - apply conjunction_of_any_children.
  - intros g G Hg HG.
    destruct (conjunction_of_the_filters k g G Hg HG) as (k' & comb & ? & ? & ?).
    by exists k', comb.
Qed.

Lemma conjunction_keeps_children_witness :
  exists k' comb,
    cell3_filters (set_global "geojson_geometry" (VJson JNull) (fresh_kernel ∅)) = (Ok tt, k') /\
    bound k' "combined_filter" comb /\
    encodes (heap k') comb
      (JObj [("type", JStr "AndFilter");
             ("config", JArr [geometry_filter_json JNull; date_range_filter_json;
                              cloud_cover_filter_json])]) /\
    (fun c => json_getitem c (KStr "type")) <$>
      [geometry_filter_json JNull; date_range_filter_json; cloud_cover_filter_json]
    = [Ok (JStr "GeometryFilter"); Ok (JStr "DateRangeFilter"); Ok (JStr "RangeFilter")].
Proof.
  apply (proj2 (conjunction_keeps_children
                  (set_global "geojson_geometry" (VJson JNull) (fresh_kernel ∅)))
           (VJson JNull) JNull).
  - reflexivity.
  - exists 0. reflexivity.
Defined.

Lemma cloud_cover_filter_encodes g k :
  filters_built g k ->
  exists cf,
    bound k "cloud_cover_filter" cf /\ encodes (heap k) cf cloud_cover_filter_json.
Proof.
  intros (gf & df & dc & cf & cc & comb & cfg & _ & _ & (Hcf & Hcfo & Hcco) & _).
  exists (VRef cf). split; [done|].
  eapply encodes_dict; [done|]. repeat constructor; simpl; try apply encodes_json.
  eapply encodes_dict; [done|]. repeat constructor; apply encodes_json.
Qed.

Lemma lte_half_admits x :
  range_admits (JObj [("lte", JFloat 0.5)]) x = true <-> (x <= 0.5)%Q.
Proof.
  unfold range_admits, number, bound_holds. cbn [forallb fst snd String.eqb Ascii.eqb Bool.eqb].
  rewrite andb_true_r. apply Qle_bool_iff.
Qed.

(** C10: In [3] builds the cloud cover filter as a RangeFilter on
    "cloud_cover" whose config is the single bound "lte": 0.5.  Read as the
    Data API reads it, the bound is inclusive: a cloud cover of exactly 0.5
    passes, and so does every cloud cover up to it, where the bound "lt" of
    "less than 50%" would turn 0.5 down. *)
Theorem cloud_cover_bound_is_inclusive k g :
  bound k "geojson_geometry" g ->
  exists k' cf,
    cell3_filters k = (Ok tt, k') /\
    bound k' "cloud_cover_filter" cf /\
    encodes (heap k') cf
      (JObj [("type", JStr "RangeFilter");
             ("field_name", JStr "cloud_cover");
             ("config", JObj [("lte", JFloat 0.5)])]) /\
    range_admits (JObj [("lte", JFloat 0.5)]) 0.5 = true /\
    (forall x, range_admits (JObj [("lte", JFloat 0.5)]) x = true <-> (x <= 0.5)%Q) /\
    range_admits (JObj [("lt", JFloat 0.5)]) 0.5 = false.
Proof.
  intros Hg.
  destruct (filters_cell_spec k g Hg) as (k' & Hrun & Hext & Hbuilt).
  destruct (cloud_cover_filter_encodes g k' Hbuilt) as (cf & Hcf & Ecf).
  exists k', cf. split_and!; [done..|reflexivity|apply lte_half_admits|reflexivity].
Qed.

Lemma cloud_cover_bound_is_inclusive_witness :
  exists k' cf,
    cell3_filters (set_global "geojson_geometry" (VJson JNull) (fresh_kernel ∅)) = (Ok tt, k') /\
    bound k' "cloud_cover_filter" cf /\
    encodes (heap k') cf
      (JObj [("type", JStr "RangeFilter");
             ("field_name", JStr "cloud_cover");
             ("config", JObj [("lte", JFloat 0.5)])]) /\
    range_admits (JObj [("lte", JFloat 0.5)]) 0.5 = true /\
    (forall x, range_admits (JObj [("lte", JFloat 0.5)]) x = true <-> (x <= 0.5)%Q) /\
    range_admits (JObj [("lt", JFloat 0.5)]) 0.5 = false.
Proof.
  apply (cloud_cover_bound_is_inclusive
           (set_global "geojson_geometry" (VJson JNull) (fresh_kernel ∅)) (VJson JNull)).
  reflexivity.
Defined.

Section Immutability.

Variable service : list Request -> Request -> result Response.

Lemma search_cell_request k cf :
  bound k "combined_filter" cf ->
  let k' := snd (cell4_search service k) in
  exists sr its,
    bound k' "search_request" (VRef sr) /\
    heap k' !! sr = Some (ODict [("item_types", VRef its); ("filter", cf)]) /\
    heap k' !! its = Some (OList [str "PSScene"]).
Proof.
  intros Hcf k'.
  set (k0 := set_global "item_type" (str "PSScene") k).
  destruct (search_request_spec k0 (str "PSScene") cf) as
    (k1 & Hrun & Hext & sr & its & Hsr & Hsro & Hitso); [done|done|].
  pose proof (search_request_stays service k1 _ Hsr) as Hstays. unfold wp in Hstays.
  assert (k' = snd ((assign_search_result service;; assign_geojson;; print_first_result) k1))
    as ->.
  { unfold k', cell4_search. unfold bind at 1. unfold assign_item_type, assign. fold k0.
    by rewrite (bind_ok _ _ _ _ _ Hrun). }
  destruct Hstays as [Hsr' Hh].
  exists sr, its. split_and!; [done|by eapply prefix_lookup_Some..].
Qed.

(** C8: nothing that has been built is modified.  In [3] and In [4] only
    add objects and bind their own names: every object that was on the heap
    is still at its address with the same content, [geojson_geometry] and
    the child filters are bound as they were, the config of the geometry
    filter is the very value of [geojson_geometry], the config of the
    conjunction is the list of the very references bound to the three
    children, and the "filter" of the search request is the very reference
    bound to [combined_filter]. *)
Theorem filters_are_not_modified k g :
  bound k "geojson_geometry" g ->
  exists k3,
    cell3_filters k = (Ok tt, k3) /\
    (forall l o, heap k !! l = Some o -> heap k3 !! l = Some o) /\
    bound k3 "geojson_geometry" g /\
    filters_built g k3 /\
    let k4 := snd (cell4_search service k3) in
    (forall l o, heap k3 !! l = Some o -> heap k4 !! l = Some o) /\
    bound k4 "geojson_geometry" g /\
    filters_built g k4 /\
    exists comb sr its,
      bound k4 "combined_filter" comb /\
      bound k4 "search_request" (VRef sr) /\
      heap k4 !! sr = Some (ODict [("item_types", VRef its); ("filter", comb)]).
Proof.
  intros Hg.
  destruct (filters_cell_spec k g Hg) as (k3 & Hrun & Hext & Hbuilt).
  pose proof (search_cell_frame service k3) as Hgrows.
  assert (bound k3 "geojson_geometry" g) as Hg3
    by (eapply extends_bound; [done|not_in_names|done]).
  exists k3. split_and!; [done| |done|done|].
  { intros l o. by eapply extends_lookup. }
  intros k4. split_and!.
  - intros l o. by eapply grows_lookup.
  - eapply grows_bound; [done|not_in_names|done].
  - eapply filters_built_grows; [done|not_in_names..|done].
  - destruct Hbuilt as (gf & df & dc & cf & cc & comb & cfg & _ & _ & _ & (Hcomb & _)).
    destruct (search_cell_request k3 _ Hcomb) as (sr & its & Hsr & Hsro & _).
    exists (VRef comb), sr, its. split_and!; [|done..].
    eapply grows_bound; [done|not_in_names|done].
Qed.

End Immutability.

Lemma filters_are_not_modified_witness :
  exists k3,
    cell3_filters (set_global "geojson_geometry" (VJson JNull) (fresh_kernel ∅)) = (Ok tt, k3) /\
    filters_built (VJson JNull) k3 /\
    filters_built (VJson JNull) (snd (cell4_search recorded_service k3)).
Proof.
  destruct (filters_are_not_modified recorded_service
              (set_global "geojson_geometry" (VJson JNull) (fresh_kernel ∅)) (VJson JNull))
    as (k3 & Hrun & _ & _ & Hbuilt & _ & _ & Hbuilt' & _).
  - reflexivity.
  - by exists k3.
Defined.

(** ** The poller of the specification *)

Module PollerFacts.
Import Poller.

Lemma polls_suspended interval p : polls (suspended interval p) = polls p.
Proof. unfold suspended. by destruct (polls p) eqn:E. Qed.

Lemma wait_loop_step srv asset interval rest p :
  wait_loop srv asset interval (S rest) p =
    match srv asset (polls p) with
    | Fails e => (inr (Propagated e), polled (suspended interval p))
    | Seen (Active h) => (inl h, polled (suspended interval p))
    | Seen Failed => (inr ActivationFailedError, polled (suspended interval p))
    | Seen _ => wait_loop srv asset interval rest (polled (suspended interval p))
    end.
Proof.
  cbn [wait_loop]. unfold poll. rewrite polls_suspended.
  by destruct (srv asset (polls p)) as [[]|].
Qed.

Lemma polls_next interval p : polls (polled (suspended interval p)) = S (polls p).
Proof. simpl. by rewrite polls_suspended. Qed.

(** The loop hands out a handle exactly when the first answer that is not
    pending comes within the attempts and is active. *)
Lemma wait_loop_handle srv asset interval attempts p h :
  fst (wait_loop srv asset interval attempts p) = inl h <->
  exists n, n < attempts /\
            srv asset (polls p + n) = Seen (Active h) /\
            forall i, i < n -> pending (srv asset (polls p + i)).
Proof.
  revert p. induction attempts as [|rest IH]; intros p.
  { split; [done|]. intros (n & Hn & _). lia. }
  rewrite wait_loop_step.
  destruct (srv asset (polls p)) as [[| |h'|]|e] eqn:Hp.
  1,2: rewrite IH, polls_next; split.
  1,3: intros (n & Hn & Hact & Hpend); exists (S n); split_and!; [lia| |].
  1,3: by rewrite Nat.add_succ_r.
  1,2: intros [|i] Hi;
         [rewrite Nat.add_0_r, Hp; unfold pending; auto
         |rewrite Nat.add_succ_r; apply Hpend; lia].
  1,2: intros ([|n] & Hn & Hact & Hpend);
         [rewrite Nat.add_0_r in Hact; congruence|];
         exists n; split_and!; [lia|by rewrite Nat.add_succ_r in Hact|];
         intros i Hi; specialize (Hpend (S i)); rewrite Nat.add_succ_r in Hpend;
         apply Hpend; lia.
  - split.
    + intros [= ->]. exists 0. rewrite Nat.add_0_r. split_and!; [lia|done|lia].
    + intros ([|n] & Hn & Hact & Hpend).
      * rewrite Nat.add_0_r in Hact. simpl. congruence.
      * specialize (Hpend 0). rewrite Nat.add_0_r, Hp in Hpend.
        destruct Hpend; [lia|done|done].
  - split; [done|]. intros ([|n] & Hn & Hact & Hpend).
    + rewrite Nat.add_0_r in Hact. congruence.
    + specialize (Hpend 0). rewrite Nat.add_0_r, Hp in Hpend.
      destruct Hpend; [lia|done|done].
  - split; [done|]. intros ([|n] & Hn & Hact & Hpend).
    + rewrite Nat.add_0_r in Hact. congruence.
    + specialize (Hpend 0). rewrite Nat.add_0_r, Hp in Hpend.
      destruct Hpend; [lia|done|done].
Qed.

(** While every answer is pending the loop uses up its attempts. *)
Lemma wait_loop_timeout srv asset interval attempts p :
  (forall i, i < attempts -> pending (srv asset (polls p + i))) ->
  fst (wait_loop srv asset interval attempts p) = inr TimeoutError /\
  polls (snd (wait_loop srv asset interval attempts p)) = polls p + attempts.
Proof.
  revert p. induction attempts as [|rest IH]; intros p Hpend.
  { simpl. split; [done|lia]. }
  rewrite wait_loop_step.
  pose proof (Hpend 0 ltac:(lia)) as H0. rewrite Nat.add_0_r in H0.
  assert (forall i, i < rest ->
            pending (srv asset (polls (polled (suspended interval p)) + i))) as Hrest.
  { intros i Hi. rewrite polls_next. specialize (Hpend (S i)).
    rewrite Nat.add_succ_r in Hpend. apply Hpend. lia. }
  destruct (IH _ Hrest) as [Hr Hn]. rewrite polls_next in Hn.
  destruct H0 as [-> | ->]; (split; [done|lia]).
Qed.

(** The error of a poll ends the loop at that poll. *)
Lemma wait_loop_propagates srv asset interval attempts p n e :
  n < attempts ->
  (forall i, i < n -> pending (srv asset (polls p + i))) ->
  srv asset (polls p + n) = Fails e ->
  fst (wait_loop srv asset interval attempts p) = inr (Propagated e) /\
  polls (snd (wait_loop srv asset interval attempts p)) = polls p + S n.
Proof.
  revert p n. induction attempts as [|rest IH]; intros p n Hn Hpend Hfail; [lia|].
  rewrite wait_loop_step. destruct n as [|n].
  - rewrite Nat.add_0_r in Hfail. rewrite Hfail. simpl. rewrite polls_suspended.
    split; [done|lia].
  - pose proof (Hpend 0 ltac:(lia)) as H0. rewrite Nat.add_0_r in H0.
    destruct (IH (polled (suspended interval p)) n) as [Hr Hp]; [lia| | |].
    + intros i Hi. rewrite polls_next. specialize (Hpend (S i)).
      rewrite Nat.add_succ_r in Hpend. apply Hpend. lia.
    + rewrite polls_next. by rewrite Nat.add_succ_r in Hfail.
    + rewrite polls_next in Hp. destruct H0 as [-> | ->]; (split; [done|lia]).
Qed.

(** C3: [waitUntilActive] returns a handle if and only if the server, after
    answers that are all pending, answers active within [maxAttempts] polls,
    and the handle is the one of that answer; while the status remains
    activating for [maxAttempts] polls it fails with [TimeoutError], having
    polled that often; and the [NotFoundError], [AuthError] or
    [TransientError] of a poll is handed on at that poll, without another. *)
Theorem waitUntilActive_spec srv asset interval maxAttempts :
  (forall h,
     fst (waitUntilActive srv asset interval maxAttempts) = inl h <->
     exists n, n < maxAttempts /\
               srv asset n = Seen (Active h) /\
               forall i, i < n -> pending (srv asset i)) /\
  ((forall i, i < maxAttempts -> srv asset i = Seen Activating) ->
   fst (waitUntilActive srv asset interval maxAttempts) = inr TimeoutError /\
   polls (snd (waitUntilActive srv asset interval maxAttempts)) = maxAttempts) /\
  (forall n e,
     n < maxAttempts ->
     (forall i, i < n -> pending (srv asset i)) ->
     srv asset n = Fails e ->
     fst (waitUntilActive srv asset interval maxAttempts) = inr (Propagated e) /\
     polls (snd (waitUntilActive srv asset interval maxAttempts)) = S n).
Proof.
  unfold waitUntilActive. split_and!.
  - intros h. apply wait_loop_handle.
  - intros Hact. apply (wait_loop_timeout srv asset interval maxAttempts (mkProgress 0 0)).
    intros i Hi. right. by apply Hact.
  - intros n e. apply (wait_loop_propagates srv asset interval maxAttempts (mkProgress 0 0)).
Qed.

Lemma waitUntilActive_spec_witness :
  fst (waitUntilActive third_time_active "ortho_analytic_4b" 5 3) = inl sample_handle.
Proof.
  apply (proj1 (waitUntilActive_spec third_time_active "ortho_analytic_4b" 5 3)
           sample_handle).
  exists 2. split_and!; [lia|reflexivity|].
  intros [|[|i]] Hi; [by right|by right|lia].
Defined.

End PollerFacts.

(** C9 at the recorded shape of an empty search: no feature, no first image. *)
Lemma first_image_needs_a_feature_witness :
  cell10_assets recorded_service plain_str (snd (cell5_image_ids (kernel_with_features []))) =
    (Raise IndexError, snd (cell5_image_ids (kernel_with_features []))).
Proof.
  exact (proj2 (proj2 (proj1
           (first_image_needs_a_feature recorded_service plain_str
              (kernel_with_features []) (JObj [("features", JArr [])]) eq_refl)
           eq_refl))).
Defined.

(** * Further properties of the cells *)

(** ** What every cell leaves alone *)

Lemma within_refl n k : within n k k.
Proof.
  split_and!; try done. exists []. split; [by rewrite app_nil_r|simpl; lia].
Qed.

Lemma within_set_global n k k' x v : within n k k' -> within n k (set_global x v k').
Proof. by intros (He & Hh & Ho & Hs). Qed.

Lemma within_push_obj n k k' o : within n k k' -> within n k (push_obj o k').
Proof.
  intros (He & Hh & Ho & Hs). split_and!; try done. simpl. by apply prefix_app_r.
Qed.

Lemma within_emit n k k' v : within n k k' -> within n k (emit v k').
Proof.
  intros (He & Hh & Ho & Hs). split_and!; try done. simpl. by apply prefix_app_r.
Qed.

Lemma within_log_request n k k' r : within n k k' -> within (S n) k (log_request r k').
Proof.
  intros (He & Hh & Ho & reqs & Hs & Hn). split_and!; try done.
  exists (reqs ++ [r]). simpl. rewrite Hs, length_app, <- app_assoc. simpl.
  split; [done|lia].
Qed.

Lemma within_le n m k k' : n <= m -> within n k k' -> within m k k'.
Proof.
  intros Hnm (He & Hh & Ho & reqs & Hs & Hn). split_and!; try done.
  exists reqs. split; [done|lia].
Qed.

Lemma within_trans n m k k' k'' :
  within n k k' -> within m k' k'' -> within (n + m) k k''.
Proof.
  intros (He & Hh & Ho & reqs & Hs & Hn) (He' & Hh' & Ho' & reqs' & Hs' & Hn').
  split_and!; [congruence|by etrans|by etrans|].
  exists (reqs ++ reqs'). rewrite Hs', Hs, length_app, <- app_assoc. split; [done|lia].
Qed.

Ltac within_solve :=
  repeat first
    [ apply within_refl
    | apply within_set_global
    | apply within_push_obj
    | apply within_emit
    | apply within_log_request ].

Section Footprint.

Variable service : list Request -> Request -> result Response.
Variable py_str : val -> string.

Lemma quiet_cells c k :
  c ∈ [cell1_api_key; cell2_aoi; cell3_filters; cell5_image_ids; cell11_status;
       cell14_download_link] ->
  within 0 k (snd (c k)).
Proof.
  rewrite !elem_of_cons, elem_of_nil.
  intros [->|[->|[->|[->|[->|[->|[]]]]]]].
  - change (wp cell1_api_key (fun _ k' => within 0 k k') k).
    unfold cell1_api_key. wp_run; within_solve.
  - change (wp cell2_aoi (fun _ k' => within 0 k k') k).
    unfold cell2_aoi. wp_run; within_solve.
  - change (wp cell3_filters (fun _ k' => within 0 k k') k).
    unfold cell3_filters, assign_geometry_filter, assign_date_range_filter,
      assign_cloud_cover_filter, assign_combined_filter.
    wp_run; within_solve.
  - change (wp cell5_image_ids (fun _ k' => within 0 k k') k).
    unfold cell5_image_ids. wp_run; within_solve.
  - change (wp cell11_status (fun _ k' => within 0 k k') k).
    unfold cell11_status. wp_run; within_solve.
  - change (wp cell14_download_link (fun _ k' => within 0 k k') k).
    unfold cell14_download_link. wp_run; within_solve.
Qed.

Lemma sending_cells c k :
  c ∈ [cell4_search service; cell10_assets service py_str; cell12_activate service;
       cell13_poll service] ->
  within 1 k (snd (c k)).
Proof.
  rewrite !elem_of_cons, elem_of_nil.
  intros [->|[->|[->|[->|[]]]]].
  - change (wp (cell4_search service) (fun _ k' => within 1 k k') k).
    unfold cell4_search, assign_item_type, assign_search_request,
      assign_search_result, assign_geojson, print_first_result.
    wp_run; within_solve.
  - change (wp (cell10_assets service py_str) (fun _ k' => within 1 k k') k).
    unfold cell10_assets. wp_run; within_solve.
  - change (wp (cell12_activate service) (fun _ k' => within 1 k k') k).
    unfold cell12_activate. wp_run; within_solve.
  - change (wp (cell13_poll service) (fun _ k' => within 1 k k') k).
    unfold cell13_poll. wp_run; within_solve.
Qed.

Lemma cell_footprint c k :
  c ∈ notebook service py_str -> within 1 k (snd (c k)).
Proof.
  unfold notebook. rewrite !elem_of_cons, elem_of_nil.
  intros [->|[->|[->|[->|[->|[->|[->|[->|[->|[->|[]]]]]]]]]]];
    first [ apply sending_cells; set_solver
          | apply (within_le 0); [lia|]; apply quiet_cells; set_solver ].
Qed.

Lemma run_within cs ns k :
  Forall2 (fun c n => forall k', within n k' (snd (c k'))) cs ns ->
  within (sum_list ns) k (snd (run_cells cs k)).
Proof.
  rewrite run_cells_state. intros Hcs. revert k.
  induction Hcs as [|c n cs ns Hc _ IH]; intros k; [apply within_refl|].
  simpl. eapply within_trans; [apply Hc|apply IH].
Qed.

(** X1: whatever cells of the notebook are run, in whatever order and from
    whatever kernel: the environment is never written, no object and no line
    of output is ever changed or taken back, the requests sent are never
    forgotten, and there is at most one new request per cell run. *)
Theorem runs_only_add cs k :
  Forall (fun c => c ∈ notebook service py_str) cs ->
  within (length cs) k (snd (run_cells cs k)).
Proof.
  intros Hcs.
  assert (length cs = sum_list (replicate (length cs) 1)) as ->.
  { clear. induction cs as [|c cs IH]; simpl; congruence. }
  apply run_within. clear k.
  induction Hcs as [|c cs Hc _ IH]; simpl; constructor; [|done].
  intros k. by apply cell_footprint.
Qed.

(** X2: one pass over the notebook sends at most four requests: the cells that
    set the key, define the area, build the filters, extract the ids, show
    the status and read the download link never send anything, and the
    download link itself is never requested. *)
Theorem one_pass_sends_at_most_four k :
  (forall c,
     c ∈ [cell1_api_key; cell2_aoi; cell3_filters; cell5_image_ids; cell11_status;
          cell14_download_link] ->
     forall k', sent (snd (c k')) = sent k') /\
  exists reqs,
    sent (snd (run_cells (notebook service py_str) k)) = sent k ++ reqs /\
    length reqs <= 4.
Proof.
  split.
  - intros c Hc k'. destruct (quiet_cells c k' Hc) as (_ & _ & _ & reqs & -> & Hn).
    destruct reqs; [by rewrite app_nil_r|simpl in Hn; lia].
  - assert (within 4 k (snd (run_cells (notebook service py_str) k))) as (_ & _ & _ & H);
      [|done].
    apply (run_within _ [0; 0; 0; 1; 0; 1; 0; 1; 1; 0]).
    unfold notebook.
    repeat (constructor;
              [intros k';
               first [ apply quiet_cells; set_solver | apply sending_cells; set_solver ]|]).
    constructor.
Qed.

End Footprint.

Lemma runs_only_add_witness :
  within 10 (fresh_kernel ∅)
    (snd (run_cells (notebook obliging_service plain_str) (fresh_kernel ∅))).
Proof.
  apply (runs_only_add obliging_service plain_str
           (notebook obliging_service plain_str) (fresh_kernel ∅)).
  by apply Forall_forall.
Defined.

(** ** Without the key, without the asset, without the location *)

Section Stops.

Variable service : list Request -> Request -> result Response.
Variable py_str : val -> string.



(** X4: while the status response has no [location], as long as the asset is
    not active, In [14] stops with the [KeyError] of that lookup, uncaught,
    and binds and prints nothing. *)
Theorem download_link_needs_location k url key r fields :
  bound k "self_link" (str url) ->
  bound k "API_KEY" key ->
  service (sent k) (link_get key url) = Ok r ->
  resp_json r = Some (JObj fields) ->
  dict_get fields "location" = None ->
  cell14_download_link (snd (cell13_poll service k)) =
    (Raise (KeyError (KStr "location")), snd (cell13_poll service k)).
Proof.
  intros Hlink Hkey Hsvc Hjson Hloc.
  pose proof (poll_cell_binds_response service k url key r Hlink Hkey Hsvc) as Hres.
  unfold bound in Hres.
  apply wp_eq. unfold cell14_download_link. wp_run. done.
Qed.

Lemma traverse_subscript_raise key vs1 xs1 v vs2 e k :
  Forall2 (fun v x => getitem (heap k) v key = Ok x) vs1 xs1 ->
  getitem (heap k) v key = Raise e ->
  fst (traverse (fun v => subscript v key) (vs1 ++ v :: vs2) k) = Raise e.
Proof.
  intros Hvs Hv. induction Hvs as [|v1 x1 vs1 xs1 Hv1 _ IH].
  - cbn [app traverse]. unfold bind at 1, subscript at 1. by rewrite Hv.
  - cbn [app traverse]. unfold bind at 1, subscript at 1. rewrite Hv1.
    unfold bind at 1.
    pose proof (traverse_subscript_state key (vs1 ++ v :: vs2) k) as Hk.
    destruct (traverse _ (vs1 ++ v :: vs2) k) as [[bs|e'] k2]; simpl in *; by simplify_eq.
Qed.

(** X5: the comprehension of In [5] is all or nothing: when one feature has no
    [id] to give, the cell stops with that feature's exception and leaves
    the kernel as it was: [image_ids] is not bound to the ids found so far,
    nothing is built or printed. *)
Theorem image_ids_all_or_nothing k g fs1 ids1 f fs2 e :
  bound k "geojson" (VJson g) ->
  json_getitem g (KStr "features") = Ok (JArr (fs1 ++ f :: fs2)) ->
  Forall2 (fun f' i => json_getitem f' (KStr "id") = Ok i) fs1 ids1 ->
  json_getitem f (KStr "id") = Raise e ->
  cell5_image_ids k = (Raise e, k).
Proof.
  unfold bound. intros Hgeo Hfeatures Hids Hf.
  assert (fst (traverse (fun feature => subscript feature (KStr "id"))
                 (VJson <$> (fs1 ++ f :: fs2)) k) = Raise e) as Htraverse.
  { rewrite fmap_app, fmap_cons.
    eapply (traverse_subscript_raise _ _ (VJson <$> ids1)).
    - apply Forall2_fmap. eapply Forall2_impl; [done|].
      intros f' i Hf'. simpl. by rewrite Hf'.
    - simpl. by rewrite Hf. }
  apply wp_eq. unfold cell5_image_ids.
  wp_step. wp_step. rewrite Hgeo.
  wp_step. wp_step. simpl. rewrite Hfeatures.
  wp_step. wp_step. simpl.
  wp_step. wp_step. rewrite Htraverse. done.
Qed.

(** X6: when the asset is not among the assets of the image, the rest of the
    notebook stops cell after cell without a single request: In [11] and
    In [12] with the [KeyError] of the asset name, In [13] and In [14] with
    the [NameError] of the names In [12] and In [13] did not get to bind;
    the kernel is left as it was. *)
Theorem missing_asset_stops_the_rest k r assets :
  bound k "result" (VResp r) ->
  resp_json r = Some (JObj assets) ->
  dict_get assets "ortho_analytic_4b" = None ->
  dict_get (globals k) "self_link" = None ->
  dict_get (globals k) "activation_status_result" = None ->
  run_cells [cell11_status; cell12_activate service; cell13_poll service;
             cell14_download_link] k =
    ([Some (KeyError (KStr "ortho_analytic_4b"));
      Some (KeyError (KStr "ortho_analytic_4b"));
      Some (NameError "self_link");
      Some (NameError "activation_status_result")], k).
Proof.
  unfold bound. intros Hres Hjson Hmiss Hlink Hstatus.
  assert (cell11_status k = (Raise (KeyError (KStr "ortho_analytic_4b")), k)) as H11.
  { apply wp_eq. unfold cell11_status. wp_run. done. }
  assert (cell12_activate service k = (Raise (KeyError (KStr "ortho_analytic_4b")), k))
    as H12.
  { apply wp_eq. unfold cell12_activate. wp_run. done. }
  assert (cell13_poll service k = (Raise (NameError "self_link"), k)) as H13.
  { apply wp_eq. unfold cell13_poll. wp_run. done. }
  assert (cell14_download_link k = (Raise (NameError "activation_status_result"), k))
    as H14.
  { apply wp_eq. unfold cell14_download_link. wp_run. done. }
  cbn [run_cells]. unfold run_cell. by rewrite H11, H12, H13, H14.
Qed.

End Stops.


Lemma download_link_needs_location_witness :
  cell14_download_link (snd (cell13_poll turns_active polling_kernel)) =
    (Raise (KeyError (KStr "location")), snd (cell13_poll turns_active polling_kernel)).
Proof.
  apply (download_link_needs_location turns_active polling_kernel
           "https://api.planet.com/self" (str "key") activating_answer
           [("status", JStr "activating")]);
    reflexivity.
Defined.

Lemma image_ids_all_or_nothing_witness :
  cell5_image_ids (kernel_with_features [feature "20160831_212705_0c43"; JObj []]) =
    (Raise (KeyError (KStr "id")),
     kernel_with_features [feature "20160831_212705_0c43"; JObj []]).
Proof.
  apply (image_ids_all_or_nothing
           (kernel_with_features [feature "20160831_212705_0c43"; JObj []])
           (JObj [("features", JArr [feature "20160831_212705_0c43"; JObj []])])
           [feature "20160831_212705_0c43"] [JStr "20160831_212705_0c43"]
           (JObj []) []).
  - reflexivity.
  - reflexivity.
  - repeat constructor.
  - reflexivity.
Defined.

Lemma missing_asset_stops_the_rest_witness :
  run_cells [cell11_status; cell12_activate recorded_service;
             cell13_poll recorded_service; cell14_download_link]
    (kernel_with_assets []) =
    ([Some (KeyError (KStr "ortho_analytic_4b"));
      Some (KeyError (KStr "ortho_analytic_4b"));
      Some (NameError "self_link");
      Some (NameError "activation_status_result")], kernel_with_assets []).
Proof.
  apply (missing_asset_stops_the_rest recorded_service (kernel_with_assets [])
           (assets_answer []) []);
    reflexivity.
Defined.

(** ** The cells when all goes well *)

Local Arguments String.append : simpl never.

Lemma run_cells_ok (c : M unit) cs k k' :
  c k = (Ok tt, k') ->
  run_cells (c :: cs) k = (None :: fst (run_cells cs k'), snd (run_cells cs k')).
Proof.
  intros Hc. cbn [run_cells]. unfold run_cell. rewrite Hc.
  by destruct (run_cells cs k').
Qed.

Lemma status_cell_run k r j a s :
  bound k "result" (VResp r) ->
  resp_json r = Some j ->
  json_getitem j (KStr "ortho_analytic_4b") = Ok a ->
  json_getitem a (KStr "status") = Ok s ->
  cell11_status k = (Ok tt, emit (VJson s) k).
Proof.
  unfold bound. intros Hres Hjson Hasset Hstatus.
  apply wp_eq. unfold cell11_status. wp_run. done.
Qed.

Section Going.

Variable service : list Request -> Request -> result Response.
Variable py_str : val -> string.

Lemma activate_cell_run k r j a links self activate key ack :
  bound k "result" (VResp r) ->
  resp_json r = Some j ->
  json_getitem j (KStr "ortho_analytic_4b") = Ok a ->
  json_getitem a (KStr "_links") = Ok links ->
  json_getitem links (KStr "_self") = Ok self ->
  json_getitem links (KStr "activate") = Ok (JStr activate) ->
  bound k "API_KEY" key ->
  service (sent k) (link_get key activate) = Ok ack ->
  cell12_activate service k =
    (Ok tt,
     set_global "activate_result" (VResp ack)
       (log_request (link_get key activate)
          (set_global "activation_link" (str activate)
             (set_global "self_link" (VJson self)
                (set_global "links" (VJson links) k))))).
Proof.
  unfold bound, link_get. intros Hres Hjson Hasset Hlinks Hself Hact Hkey Hsvc.
  apply wp_eq. unfold cell12_activate. wp_run. done.
Qed.

Lemma activate_cell_without_link k r j a links self e :
  bound k "result" (VResp r) ->
  resp_json r = Some j ->
  json_getitem j (KStr "ortho_analytic_4b") = Ok a ->
  json_getitem a (KStr "_links") = Ok links ->
  json_getitem links (KStr "_self") = Ok self ->
  json_getitem links (KStr "activate") = Raise e ->
  cell12_activate service k =
    (Raise e, set_global "self_link" (VJson self) (set_global "links" (VJson links) k)).
Proof.
  unfold bound. intros Hres Hjson Hasset Hlinks Hself Hact.
  apply wp_eq. unfold cell12_activate. wp_run. done.
Qed.

(** X7: In [12] asks for the activation and does not look at the answer: with
    the links of the asset in the assets response it binds [self_link] and
    [activation_link], sends the one GET of the activation link and ends
    well whatever response comes back, be its body empty or an error page.
    When the [activate] link is missing it stops before sending, yet
    [self_link] is bound by then. *)
Theorem activation_is_fire_and_forget k r j a links self :
  bound k "result" (VResp r) ->
  resp_json r = Some j ->
  json_getitem j (KStr "ortho_analytic_4b") = Ok a ->
  json_getitem a (KStr "_links") = Ok links ->
  json_getitem links (KStr "_self") = Ok self ->
  (forall activate key ack,
     json_getitem links (KStr "activate") = Ok (JStr activate) ->
     bound k "API_KEY" key ->
     service (sent k) (link_get key activate) = Ok ack ->
     cell12_activate service k =
       (Ok tt,
        set_global "activate_result" (VResp ack)
          (log_request (link_get key activate)
             (set_global "activation_link" (str activate)
                (set_global "self_link" (VJson self)
                   (set_global "links" (VJson links) k)))))) /\
  (forall e,
     json_getitem links (KStr "activate") = Raise e ->
     cell12_activate service k =
       (Raise e, set_global "self_link" (VJson self) (set_global "links" (VJson links) k))).
Proof.
  intros Hres Hjson Hasset Hlinks Hself. split.
  - intros activate key ack Hact Hkey Hsvc. by eapply activate_cell_run.
  - intros e Hact. by eapply activate_cell_without_link.
Qed.

Lemma assets_cell_request k l id ids it key r :
  bound k "image_ids" (VRef l) ->
  heap k !! l = Some (OList (str id :: ids)) ->
  bound k "item_type" (str it) ->
  bound k "API_KEY" key ->
  service (sent k) (link_get key (assets_url it id)) = Ok r ->
  wp (cell10_assets service py_str)
    (fun _ k' =>
       sent k' = sent k ++ [link_get key (assets_url it id)] /\
       bound k' "result" (VResp r) /\
       bound k' "id0" (str id)) k.
Proof.
  unfold bound, link_get, assets_url. intros Hids Hl Hit Hkey Hsvc.
  unfold cell10_assets. wp_run; done.
Qed.

Lemma assets_cell_run k l id ids it key r assets :
  bound k "image_ids" (VRef l) ->
  heap k !! l = Some (OList (str id :: ids)) ->
  bound k "item_type" (str it) ->
  bound k "API_KEY" key ->
  service (sent k) (link_get key (assets_url it id)) = Ok r ->
  resp_json r = Some (JObj assets) ->
  cell10_assets service py_str k =
    (Ok tt,
     emit (VJson (JArr ((fun kv => JStr (fst kv)) <$> assets)))
       (set_global "result" (VResp r)
          (log_request (link_get key (assets_url it id))
             (set_global "id0_url" (str (assets_url it id))
                (set_global "id0" (str id) k))))).
Proof.
  unfold bound, link_get, assets_url. intros Hids Hl Hit Hkey Hsvc Hjson.
  apply wp_eq. unfold cell10_assets. wp_run. done.
Qed.

(** X8: In [10] asks for the assets of the first image id: with a string id
    its request is the GET of
    [.../item-types/<item_type>/items/<id>/assets], the id put into the URL
    as it is; and [result] is bound to the response before its body is
    looked at, so it is bound even when the body is no JSON object and the
    cell stops at printing the keys. *)
Theorem assets_are_requested_for_the_first_id k l id ids it key r :
  bound k "image_ids" (VRef l) ->
  heap k !! l = Some (OList (str id :: ids)) ->
  bound k "item_type" (str it) ->
  bound k "API_KEY" key ->
  service (sent k) (link_get key (assets_url it id)) = Ok r ->
  sent (snd (cell10_assets service py_str k)) =
    sent k ++ [link_get key (assets_url it id)] /\
  bound (snd (cell10_assets service py_str k)) "result" (VResp r) /\
  bound (snd (cell10_assets service py_str k)) "id0" (str id) /\
  (forall assets,
     resp_json r = Some (JObj assets) ->
     fst (cell10_assets service py_str k) = Ok tt /\
     stdout (snd (cell10_assets service py_str k)) =
       stdout k ++ [VJson (JArr ((fun kv => JStr (fst kv)) <$> assets))]).
Proof.
  intros Hids Hl Hit Hkey Hsvc.
  destruct (assets_cell_request k l id ids it key r Hids Hl Hit Hkey Hsvc)
    as (Hsent & Hres & Hid0).
  split_and!; try done.
  intros assets Hjson.
  by rewrite (assets_cell_run k l id ids it key r assets Hids Hl Hit Hkey Hsvc Hjson).
Qed.

End Going.

Lemma activation_is_fire_and_forget_witness :
  cell12_activate (scripted [Ok (mkResponse None)]) kernel_with_asset =
    (Ok tt,
     set_global "activate_result" (VResp (mkResponse None))
       (log_request (link_get (str "key") "https://api.planet.com/activate")
          (set_global "activation_link" (str "https://api.planet.com/activate")
             (set_global "self_link" (str "https://api.planet.com/self")
                (set_global "links"
                   (VJson (JObj [("_self", JStr "https://api.planet.com/self");
                                 ("activate", JStr "https://api.planet.com/activate")]))
                   kernel_with_asset))))).
Proof.
  apply (proj1 (activation_is_fire_and_forget (scripted [Ok (mkResponse None)])
                  kernel_with_asset
                  (assets_answer
                     [("ortho_analytic_4b",
                       asset_descriptor "inactive" "https://api.planet.com/self"
                         "https://api.planet.com/activate")])
                  (JObj [("ortho_analytic_4b",
                          asset_descriptor "inactive" "https://api.planet.com/self"
                            "https://api.planet.com/activate")])
                  (asset_descriptor "inactive" "https://api.planet.com/self"
                     "https://api.planet.com/activate")
                  (JObj [("_self", JStr "https://api.planet.com/self");
                         ("activate", JStr "https://api.planet.com/activate")])
                  (JStr "https://api.planet.com/self")
                  eq_refl eq_refl eq_refl eq_refl eq_refl));
    reflexivity.
Defined.

Lemma assets_are_requested_for_the_first_id_witness :
  sent (snd (cell10_assets recorded_service plain_str kernel_with_ids)) =
    [link_get (str "key") (assets_url "PSScene" "20160831_212705_0c43")] /\
  bound (snd (cell10_assets recorded_service plain_str kernel_with_ids)) "id0"
    (str "20160831_212705_0c43").
Proof.
  destruct (assets_are_requested_for_the_first_id recorded_service plain_str
              kernel_with_ids 0 "20160831_212705_0c43" [str "20160831_212703_0c43"]
              "PSScene" (str "key")
              (search_answer ["20160831_212705_0c43"; "20160831_212703_0c43"])
              eq_refl eq_refl eq_refl eq_refl eq_refl)
    as (Hsent & _ & Hid0 & _).
  split; [exact Hsent|exact Hid0].
Defined.

Section Searching.

Variable service : list Request -> Request -> result Response.

Lemma search_rest_short k1 key sr body r kvs :
  bound k1 "API_KEY" key ->
  bound k1 "search_request" (VRef sr) ->
  encode recursion_limit (heap k1) (VRef sr) = Some body ->
  service (sent k1)
    (mkRequest POST "https://api.planet.com/data/v1/quick-search"
       (HTTPBasicAuth key (str "")) (Some body)) = Ok r ->
  resp_json r = Some (JObj kvs) ->
  length kvs < 2 ->
  wp (assign_search_result service ;; assign_geojson ;; print_first_result)
    (fun o _ => o = Raise IndexError) k1.
Proof.
  unfold bound. intros Hkey Hsr Hbody Hsvc Hjson Hlen.
  unfold assign_search_result, assign_geojson, print_first_result.
  destruct kvs as [|kv1 [|kv2 kvs]]; [| |simpl in Hlen; lia]; wp_run; done.
Qed.

Lemma search_rest_run k1 key sr body r kv1 key2 x xs rest :
  bound k1 "API_KEY" key ->
  bound k1 "search_request" (VRef sr) ->
  encode recursion_limit (heap k1) (VRef sr) = Some body ->
  service (sent k1)
    (mkRequest POST "https://api.planet.com/data/v1/quick-search"
       (HTTPBasicAuth key (str "")) (Some body)) = Ok r ->
  resp_json r = Some (JObj (kv1 :: (key2, JArr (x :: xs)) :: rest)) ->
  (assign_search_result service ;; assign_geojson ;; print_first_result) k1 =
    (Ok tt,
     emit (VJson x)
       (set_global "geojson" (VJson (JObj (kv1 :: (key2, JArr (x :: xs)) :: rest)))
          (set_global "search_result" (VResp r)
             (log_request
                (mkRequest POST "https://api.planet.com/data/v1/quick-search"
                   (HTTPBasicAuth key (str "")) (Some body)) k1)))).
Proof.
  unfold bound. intros Hkey Hsr Hbody Hsvc Hjson.
  apply wp_eq. unfold assign_search_result, assign_geojson, print_first_result.
  wp_run. done.
Qed.

(** X9: In [4] binds [geojson] to the decoded response before it prints, so the
    ids can be extracted even when the print fails.  The print shows the
    first element of the value of the second entry of the response, by
    position and whatever its key: it stops with an [IndexError] when the
    response has fewer than two entries, and shows the first result when
    the second entry is the non-empty list of the results. *)
Theorem first_result_is_shown_by_position k key cf n F r j :
  bound k "API_KEY" key ->
  bound k "combined_filter" cf ->
  encode n (heap k) cf = Some F ->
  n + 2 <= recursion_limit ->
  service (sent k) (search_post key F) = Ok r ->
  resp_json r = Some j ->
  bound (snd (cell4_search service k)) "geojson" (VJson j) /\
  (forall kvs,
     j = JObj kvs -> length kvs < 2 ->
     fst (cell4_search service k) = Raise IndexError) /\
  (forall kv1 key2 x xs rest,
     j = JObj (kv1 :: (key2, JArr (x :: xs)) :: rest) ->
     fst (cell4_search service k) = Ok tt /\
     stdout (snd (cell4_search service k)) = stdout k ++ [VJson x]).
Proof.
  intros Hkey Hcf HF Hn Hsvc Hjson.
  destruct (search_cell_start service k key cf n F Hkey Hcf HF Hn)
    as (k1 & sr & -> & _ & _ & Hs & Ho & Hkey1 & _ & Hsr & Hbody).
  unfold search_post in Hsvc. rewrite <- Hs in Hsvc.
  split_and!.
  - by apply (search_rest_binds_geojson service k1 key sr (search_request_json F) r j).
  - intros kvs -> Hlen. by apply (search_rest_short k1 key sr (search_request_json F) r kvs).
  - intros kv1 key2 x xs rest ->.
    rewrite (search_rest_run k1 key sr (search_request_json F) r kv1 key2 x xs rest) by done.
    simpl. by rewrite Ho.
Qed.

(** X10: the search posts the geometry the filters were built with: when
    [geojson_geometry] is bound anew after In [3] has run, In [4] still
    sends the geometry that In [3] put into the geometry filter. *)
Theorem search_posts_the_geometry_of_the_filters k g G n key g' :
  bound k "geojson_geometry" g ->
  encode n (heap k) g = Some G ->
  n + 6 <= recursion_limit ->
  bound k "API_KEY" key ->
  sent (snd (cell4_search service
               (set_global "geojson_geometry" g' (snd (cell3_filters k))))) =
    sent k ++
      [search_post key
         (and_filter_json [geometry_filter_json G; date_range_filter_json;
                           cloud_cover_filter_json])].
Proof.
  intros Hg HG Hn Hkey.
  destruct (filters_cell_spec k g Hg) as (k3 & -> & Hext & Hbuilt). cbn [snd].
  apply (extends_encode _ _ _ _ _ _ Hext) in HG.
  destruct (filters_built_encode _ _ _ _ Hbuilt HG)
    as (gf & df & cf & comb & _ & _ & _ & Hcomb & _ & _ & _ & Ecomb).
  assert (bound k3 "API_KEY" key) as Hkey3
    by (eapply extends_bound; [done|not_in_names|done]).
  rewrite (search_cell_sent service (set_global "geojson_geometry" g' k3)
             key comb (4 + n)
             (and_filter_json [geometry_filter_json G; date_range_filter_json;
                               cloud_cover_filter_json])); try done; [|lia].
  simpl. by destruct Hext as (_ & _ & -> & _).
Qed.

Lemma poll_cell_grows k :
  grows ["activation_status_result"] k (snd (cell13_poll service k)).
Proof.
  change (wp (cell13_poll service)
            (fun _ k' => grows ["activation_status_result"] k k') k).
  unfold cell13_poll. wp_run; grows_solve.
Qed.

(** X11: polling is running In [13] again: a second run sends the same GET once
    more, binds [activation_status_result] to the new response in place of
    the old, and In [14] then reads the [location] of that latest
    response. *)
Theorem polling_is_running_the_cell_again k url key r1 r2 :
  bound k "self_link" (str url) ->
  bound k "API_KEY" key ->
  service (sent k) (link_get key url) = Ok r1 ->
  service (sent k ++ [link_get key url]) (link_get key url) = Ok r2 ->
  sent (snd (cell13_poll service (snd (cell13_poll service k)))) =
    sent k ++ [link_get key url; link_get key url] /\
  bound (snd (cell13_poll service (snd (cell13_poll service k))))
    "activation_status_result" (VResp r2) /\
  (forall j u,
     resp_json r2 = Some j ->
     json_getitem j (KStr "location") = Ok u ->
     bound (snd (cell14_download_link
                   (snd (cell13_poll service (snd (cell13_poll service k))))))
       "download_link" (VJson u)).
Proof.
  intros Hlink Hkey Hsvc1 Hsvc2.
  pose proof (poll_cell_grows k) as Hgrows.
  pose proof (poll_cell_sends_the_get service k url key Hlink Hkey) as Hsent1.
  set (k1 := snd (cell13_poll service k)) in *.
  assert (bound k1 "self_link" (str url)) as Hlink1
    by (eapply grows_bound; [done|not_in_names|done]).
  assert (bound k1 "API_KEY" key) as Hkey1
    by (eapply grows_bound; [done|not_in_names|done]).
  unfold link_get in *. rewrite <- Hsent1 in Hsvc2.
  pose proof (poll_cell_sends_the_get service k1 url key Hlink1 Hkey1) as Hsent2.
  pose proof (poll_cell_binds_response service k1 url key r2 Hlink1 Hkey1 Hsvc2) as Hres.
  split_and!.
  - rewrite Hsent2, Hsent1, <- app_assoc. done.
  - done.
  - intros j u Hjson Hloc.
    by rewrite (download_link_cell_run _ r2 j u Hres Hjson Hloc).
Qed.

End Searching.

Lemma first_result_is_shown_by_position_witness :
  bound (snd (cell4_search obliging_service kernel_with_filters)) "geojson"
    (VJson (JObj [("_links", JObj []);
                  ("features", JArr two_features);
                  ("type", JStr "FeatureCollection")])) /\
  fst (cell4_search obliging_service kernel_with_filters) = Ok tt /\
  stdout (snd (cell4_search obliging_service kernel_with_filters)) =
    stdout kernel_with_filters ++ [VJson (feature "20160831_212705_0c43")].
Proof.
  destruct (first_result_is_shown_by_position obliging_service kernel_with_filters
              (str (api_key_of ∅)) (VRef 14) 8 combined_filter_json
              (search_answer ["20160831_212705_0c43"; "20160831_212703_0c43"])
              (JObj [("_links", JObj []);
                     ("features", JArr two_features);
                     ("type", JStr "FeatureCollection")]))
    as (Hbound & _ & Hshown).
  - vm_compute. reflexivity.
  - vm_compute. reflexivity.
  - vm_compute. reflexivity.
  - unfold recursion_limit. lia.
  - vm_compute. reflexivity.
  - reflexivity.
  - split; [exact Hbound|]. exact (Hshown _ _ _ _ _ eq_refl).
Defined.

Lemma search_posts_the_geometry_of_the_filters_witness :
  sent (snd (cell4_search obliging_service
               (set_global "geojson_geometry" (VJson JNull)
                  (snd (cell3_filters kernel_with_area))))) =
    sent kernel_with_area ++
      [search_post (str (api_key_of ∅))
         (and_filter_json [geometry_filter_json geojson_geometry_json;
                           date_range_filter_json; cloud_cover_filter_json])].
Proof.
  apply (search_posts_the_geometry_of_the_filters obliging_service kernel_with_area
           (VRef 7) geojson_geometry_json 4 (str (api_key_of ∅)) (VJson JNull)).
  - vm_compute. reflexivity.
  - vm_compute. reflexivity.
  - unfold recursion_limit. lia.
  - vm_compute. reflexivity.
Defined.

Lemma polling_is_running_the_cell_again_witness :
  sent (snd (cell13_poll turns_active (snd (cell13_poll turns_active polling_kernel)))) =
    sent polling_kernel ++
      [link_get (str "key") "https://api.planet.com/self";
       link_get (str "key") "https://api.planet.com/self"] /\
  bound (snd (cell14_download_link
                (snd (cell13_poll turns_active
                        (snd (cell13_poll turns_active polling_kernel))))))
    "download_link" (str "https://api.planet.com/download").
Proof.
  destruct (polling_is_running_the_cell_again turns_active polling_kernel
              "https://api.planet.com/self" (str "key") activating_answer
              (active_answer "https://api.planet.com/download")
              eq_refl eq_refl eq_refl eq_refl)
    as (Hsent & _ & Hlink).
  split; [exact Hsent|]. exact (Hlink _ _ eq_refl eq_refl).
Defined.

Section WholeNotebook.

Variable service : list Request -> Request -> result Response.
Variable py_str : val -> string.

(** In [4] when the response lists the results second, as the Data API
    does. *)
Lemma search_cell_run k key cf n F r kv1 key2 x xs rest :
  bound k "API_KEY" key ->
  bound k "combined_filter" cf ->
  encode n (heap k) cf = Some F ->
  n + 2 <= recursion_limit ->
  service (sent k) (search_post key F) = Ok r ->
  resp_json r = Some (JObj (kv1 :: (key2, JArr (x :: xs)) :: rest)) ->
  exists k4,
    cell4_search service k = (Ok tt, k4) /\
    grows ["item_type"; "search_request"; "search_result"; "geojson"] k k4 /\
    sent k4 = sent k ++ [search_post key F] /\
    bound k4 "API_KEY" key /\
    bound k4 "item_type" (str "PSScene") /\
    bound k4 "geojson" (VJson (JObj (kv1 :: (key2, JArr (x :: xs)) :: rest))).
Proof.
  intros Hkey Hcf HF Hn Hsvc Hjson.
  destruct (search_cell_start service k key cf n F Hkey Hcf HF Hn)
    as (k1 & sr & Hrun & Hgrows & _ & Hs & _ & Hkey1 & Hit1 & Hsr & Hbody).
  unfold search_post in *. rewrite <- Hs in Hsvc.
  rewrite (search_rest_run service k1 key sr (search_request_json F) r
             kv1 key2 x xs rest Hkey1 Hsr Hbody Hsvc Hjson) in Hrun.
  pose proof (search_cell_frame service k) as Hframe. rewrite Hrun in Hframe.
  eexists. split_and!; [done|done|by simpl; rewrite Hs|done..].
Qed.

(** X12: from a fresh kernel, one pass over the notebook ends without an
    exception in any cell when the service answers as follows.  The search
    is answered with an object whose second entry is a non-empty list, as
    the print of In [4] needs, and whose [features] is a list of objects
    that each have an [id], the first of them a string.  The assets of that
    first id are answered with an object that has the asset
    [ortho_analytic_4b], at whatever place and with whatever else, with a
    [status] and with [_links] whose [_self] and [activate] are strings.
    The activation is answered with anything, and the status request with
    an object that has a [status] and a [location].  Then four requests
    have been sent, the search, the assets of the first id, the activation
    link and the self link, in this order and each with the key, and
    [download_link] is the [location] of the status response, printed
    last. *)
Theorem notebook_reaches_the_download_link
    env found entry1 key2 x xs rest features id ids listed assets asset status links
    self activate ack answer now status' location :
  service [] (search_post (str (api_key_of env)) combined_filter_json) = Ok found ->
  resp_json found = Some (JObj (entry1 :: (key2, JArr (x :: xs)) :: rest)) ->
  json_getitem (JObj (entry1 :: (key2, JArr (x :: xs)) :: rest)) (KStr "features")
    = Ok (JArr features) ->
  Forall2 (fun f i => json_getitem f (KStr "id") = Ok i) features (JStr id :: ids) ->
  service [search_post (str (api_key_of env)) combined_filter_json]
    (link_get (str (api_key_of env)) (assets_url "PSScene" id)) = Ok listed ->
  resp_json listed = Some (JObj assets) ->
  json_getitem (JObj assets) (KStr "ortho_analytic_4b") = Ok asset ->
  json_getitem asset (KStr "status") = Ok status ->
  json_getitem asset (KStr "_links") = Ok links ->
  json_getitem links (KStr "_self") = Ok (JStr self) ->
  json_getitem links (KStr "activate") = Ok (JStr activate) ->
  service [search_post (str (api_key_of env)) combined_filter_json;
           link_get (str (api_key_of env)) (assets_url "PSScene" id)]
    (link_get (str (api_key_of env)) activate) = Ok ack ->
  service [search_post (str (api_key_of env)) combined_filter_json;
           link_get (str (api_key_of env)) (assets_url "PSScene" id);
           link_get (str (api_key_of env)) activate]
    (link_get (str (api_key_of env)) self) = Ok answer ->
  resp_json answer = Some now ->
  json_getitem now (KStr "status") = Ok status' ->
  json_getitem now (KStr "location") = Ok location ->
  fst (run_cells (notebook service py_str) (fresh_kernel env)) = replicate 10 None /\
  sent (snd (run_cells (notebook service py_str) (fresh_kernel env))) =
    [search_post (str (api_key_of env)) combined_filter_json;
     link_get (str (api_key_of env)) (assets_url "PSScene" id);
     link_get (str (api_key_of env)) activate;
     link_get (str (api_key_of env)) self] /\
  bound (snd (run_cells (notebook service py_str) (fresh_kernel env)))
    "download_link" (VJson location) /\
  last (stdout (snd (run_cells (notebook service py_str) (fresh_kernel env))))
    = Some (VJson location).
Proof.
  set (key := str (api_key_of env)).
  intros Hsearch Hfound Hfeatures Hids Hassets Hlisted Hasset Hstatus Hlinks Hself
    Hactivate Hack Hanswer Hnow Hstatus' Hlocation.
  unfold notebook.
  (* In [1] to In [3] *)
  rewrite (run_cells_ok _ _ _ _ (api_key_cell_run (fresh_kernel env))).
  change (set_global "API_KEY" _ _) with (set_global "API_KEY" key (fresh_kernel env)).
  set (k1 := set_global "API_KEY" key (fresh_kernel env)).
  destruct (aoi_cell_spec k1) as (k2 & Hrun2 & Hext2 & l & Hg & HG).
  rewrite (run_cells_ok _ _ _ _ Hrun2).
  destruct (filters_cell_spec k2 _ Hg) as (k3 & Hrun3 & Hext3 & Hbuilt).
  rewrite (run_cells_ok _ _ _ _ Hrun3).
  apply (extends_encode _ _ _ _ _ _ Hext3) in HG.
  destruct (filters_built_encode _ _ _ _ Hbuilt HG)
    as (gf & df & cf & comb & _ & _ & _ & Hcomb & _ & _ & _ & Ecomb).
  assert (bound k3 "API_KEY" key) as Hkey3.
  { eapply extends_bound; [done|not_in_names|].
    eapply extends_bound; [done|not_in_names|]. done. }
  assert (sent k3 = []) as Hsent3.
  { by destruct Hext3 as (_ & _ & -> & _), Hext2 as (_ & _ & -> & _). }
  (* In [4] *)
  rewrite <- Hsent3 in Hsearch.
  destruct (search_cell_run k3 key comb 8 combined_filter_json _ _ _ _ _ _
              Hkey3 Hcomb Ecomb ltac:(unfold recursion_limit; lia) Hsearch Hfound)
    as (k4 & Hrun4 & Hgrows4 & Hsent4 & Hkey4 & Hit4 & Hgeo4).
  rewrite (run_cells_ok _ _ _ _ Hrun4).
  rewrite Hsent3 in Hsent4. simpl in Hsent4.
  (* In [5] *)
  rewrite (run_cells_ok _ _ _ _
             (image_ids_cell_run k4 _ features (JStr id :: ids) Hgeo4 Hfeatures Hids)).
  set (k5 := emit _ _).
  (* In [10] *)
  assert (heap k5 !! length (heap k4) = Some (OList (str id :: (VJson <$> ids))))
    as Hids5 by (simpl; by apply list_lookup_middle).
  assert (service (sent k5) (link_get key (assets_url "PSScene" id)) = Ok listed)
    as Hsvc5 by (simpl; rewrite Hsent4; exact Hassets).
  rewrite (run_cells_ok _ _ _ _
             (assets_cell_run service py_str k5 _ _ _ _ _ _ _
                eq_refl Hids5 Hit4 Hkey4 Hsvc5 Hlisted)).
  set (k10 := emit _ _).
  (* In [11] *)
  rewrite (run_cells_ok _ _ _ _
             (status_cell_run k10 listed _ asset status eq_refl Hlisted Hasset Hstatus)).
  set (k11 := emit _ k10).
  (* In [12] *)
  assert (service (sent k11) (link_get key activate) = Ok ack)
    as Hsvc11 by (simpl; rewrite Hsent4; exact Hack).
  rewrite (run_cells_ok _ _ _ _
             (activate_cell_run service k11 listed _ asset links (JStr self) activate key
                ack eq_refl Hlisted Hasset Hlinks Hself Hactivate Hkey4 Hsvc11)).
  set (k12 := set_global "activate_result" _ _).
  (* In [13] and In [14] *)
  assert (service (sent k12) (link_get key self) = Ok answer)
    as Hsvc12 by (simpl; rewrite Hsent4; exact Hanswer).
  rewrite (run_cells_ok _ _ _ _
             (poll_cell_run service k12 self key answer now status'
                eq_refl Hkey4 Hsvc12 Hnow Hstatus')).
  set (k13 := emit _ _).
  rewrite (run_cells_ok _ _ _ _
             (download_link_cell_run k13 answer now location eq_refl Hnow Hlocation)).
  cbn [run_cells fst snd]. split_and!.
  - done.
  - simpl. by rewrite Hsent4.
  - done.
  - simpl. apply last_snoc.
Qed.

End WholeNotebook.

Lemma notebook_reaches_the_download_link_witness :
  fst (run_cells (notebook data_api_service plain_str) (fresh_kernel ∅)) = replicate 10 None /\
  sent (snd (run_cells (notebook data_api_service plain_str) (fresh_kernel ∅))) =
    [search_post (str (api_key_of ∅)) combined_filter_json;
     link_get (str (api_key_of ∅)) (assets_url "PSScene" "20160831_212705_0c43");
     link_get (str (api_key_of ∅)) "https://api.planet.com/activate";
     link_get (str (api_key_of ∅)) "https://api.planet.com/self"] /\
  bound (snd (run_cells (notebook data_api_service plain_str) (fresh_kernel ∅)))
    "download_link" (str "https://api.planet.com/download") /\
  last (stdout (snd (run_cells (notebook data_api_service plain_str) (fresh_kernel ∅))))
    = Some (str "https://api.planet.com/download").
Proof.
  apply (notebook_reaches_the_download_link data_api_service plain_str ∅
           (mkResponse
              (Some (JObj [("_links", JObj []);
                           ("features", JArr [scene "20160831_212705_0c43";
                                              scene "20160831_212703_0c43"]);
                           ("type", JStr "FeatureCollection")])))
           ("_links", JObj []) "features"
           (scene "20160831_212705_0c43") [scene "20160831_212703_0c43"]
           [("type", JStr "FeatureCollection")]
           [scene "20160831_212705_0c43"; scene "20160831_212703_0c43"]
           "20160831_212705_0c43" [JStr "20160831_212703_0c43"]
           (assets_answer
              [("basic_analytic_4b",
                asset_descriptor "active" "https://api.planet.com/basic/self"
                  "https://api.planet.com/basic/activate");
               ("ortho_analytic_4b",
                asset_descriptor "inactive" "https://api.planet.com/self"
                  "https://api.planet.com/activate")])
           [("basic_analytic_4b",
             asset_descriptor "active" "https://api.planet.com/basic/self"
               "https://api.planet.com/basic/activate");
            ("ortho_analytic_4b",
             asset_descriptor "inactive" "https://api.planet.com/self"
               "https://api.planet.com/activate")]
           (asset_descriptor "inactive" "https://api.planet.com/self"
              "https://api.planet.com/activate")
           (JStr "inactive")
           (JObj [("_self", JStr "https://api.planet.com/self");
                  ("activate", JStr "https://api.planet.com/activate")])
           "https://api.planet.com/self" "https://api.planet.com/activate"
           (mkResponse None)
           (active_answer "https://api.planet.com/download")
           (JObj [("location", JStr "https://api.planet.com/download");
                  ("status", JStr "active")])
           (JStr "active") (JStr "https://api.planet.com/download"));
    first [reflexivity | repeat constructor].
Defined.
